(** * Vector retrieval engine of the RAG exercises

    A shallow embedding of the two [VectorStore] classes

      - exercise_1_simple-rag-system/src/vector_store.py  (module [Exercise1]:
        linear scan with cosine similarity computed at query time), and
      - exercise_2_pdf-rag-system/src/vector_store.py     (module [Exercise2]:
        unit-normalised vectors in a [faiss.IndexFlatIP], with save/load),

    of the code that uses them, the two [RAGPipeline] classes of
    rag_pipeline.py (modules [Pipeline1] and [Pipeline2]) and the PDF loader
    pdf_loader.py (module [pdf_loader]), followed by the properties their
    specification states about the stores and by further properties of the
    stores, the loader and the pipelines.

    Floating-point numbers are IEEE 754 binary floats in the representation of
    [SpecFloat] (sign, mantissa, exponent, with one NaN), so division by zero,
    overflow and NaN behave as they do in numpy.  Methods are written in a
    small state-and-exception monad over the object's fields.  The [while]
    loop of the loader runs on fuel, so that inputs on which it does not end
    can be told from those on which it does. *)

From Stdlib Require Import ZArith Lia Bool.
From Stdlib Require Import Floats.SpecFloat.
From Stdlib Require Import Numbers.DecimalString.
From stdpp Require Import base option list strings gmap sorting.

Local Open Scope Z_scope.

(** ** Exceptions and the method monad *)

Inductive exn :=
  | ValueError          (* numpy: shapes not aligned *)
  | AssertionError      (* faiss python wrapper: assert d == self.d, assert k > 0 *)
  | IndexError          (* list index out of range *)
  | FileNotFoundError   (* open() of a missing file *)
  | RuntimeError        (* faiss: could not open / could not read the index file *)
  | JSONDecodeError.    (* json.load of a malformed document *)

Inductive result (A : Type) :=
  | Ok (a : A)
  | Raise (e : exn).
Arguments Ok {A} a.
Arguments Raise {A} e.

(** A method body: it runs on the current state, and gives a result or an
    exception together with the state as it is at that point. *)
Definition M (S A : Type) : Type := S -> result A * S.

Definition ret {S A} (a : A) : M S A := fun s => (Ok a, s).
Definition raise {S A} (e : exn) : M S A := fun s => (Raise e, s).
Definition bind {S A B} (c : M S A) (k : A -> M S B) : M S B :=
  fun s => match c s with
           | (Ok a, s') => k a s'
           | (Raise e, s') => (Raise e, s')
           end.
Definition get {S} : M S S := fun s => (Ok s, s).
Definition put {S} (s' : S) : M S unit := fun _ => (Ok tt, s').
Definition lift {S A} (r : result A) : M S A := fun s => (r, s).

Notation "x <- c ;; k" := (bind c (fun x => k))
  (at level 100, c at next level, right associativity).
Notation "c ;;; k" := (bind c (fun _ => k))
  (at level 100, right associativity).

(** [for x in xs: acc = body(acc, x)] with the loop-local state [acc]. *)
Fixpoint for_each {S A B} (xs : list A) (acc : B) (body : B -> A -> M S B) : M S B :=
  match xs with
  | [] => ret acc
  | x :: xs' => acc' <- body acc x ;; for_each xs' acc' body
  end.

(** ** Python lists *)

(** [l[:k]]: a negative [k] counts from the end. *)
Definition slice_to {A} (k : Z) (l : list A) : list A :=
  if 0 <=? k then take (Z.to_nat k) l
  else take (Z.to_nat (Z.of_nat (length l) + k)) l.

(** [l[i]] for an index [i >= 0]. *)
Definition getitem {A} (l : list A) (i : Z) : result A :=
  match l !! Z.to_nat i with
  | Some x => Ok x
  | None => Raise IndexError
  end.

(** [list.sort(key=..., reverse=True)].  Python's sort compares keys with [<]
    only and is stable; with [reverse=True] the list is reversed, sorted
    ascending and reversed again.  The sort itself is modelled by stable
    insertion, which is the result of any stable sort when [<] orders the
    keys. *)
Section Sort.
Context {A K : Type} (lt : K -> K -> bool) (key : A -> K).

Fixpoint insert_sorted (x : A) (l : list A) : list A :=
  match l with
  | [] => [x]
  | y :: l' => if lt (key y) (key x) then y :: insert_sorted x l'
               else x :: y :: l'
  end.

Fixpoint sort_stable (l : list A) : list A :=
  match l with
  | [] => []
  | x :: l' => insert_sorted x (sort_stable l')
  end.

Definition sort_reverse (l : list A) : list A :=
  reverse (sort_stable (reverse l)).
End Sort.

(** ** numpy on one-dimensional float arrays *)

Abbreviation float := spec_float.
Abbreviation Vector := (list spec_float).

Global Instance float_eq_dec : EqDecision float.
Proof. solve_decision. Defined.

Module np.
Section Dtype.
(** The array's dtype: [prec = 24, emax = 128] is float32 and
    [prec = 53, emax = 1024] is float64. *)
Variables prec emax : Z.

Definition zero : float := S754_zero false.

(** The sum of products, accumulated from the left from [0.0]. *)
Definition sum_products (a b : Vector) : float :=
  foldl (fun acc xy => SFadd prec emax acc (SFmul prec emax xy.1 xy.2))
        zero (zip a b).

(** [np.dot(a, b)]: shapes [(n,)] and [(m,)] must be aligned. *)
Definition dot (a b : Vector) : result float :=
  if decide (length a = length b) then Ok (sum_products a b)
  else Raise ValueError.

(** [np.linalg.norm(x)] is [sqrt(x.dot(x))]. *)
Definition linalg_norm (x : Vector) : float :=
  SFsqrt prec emax (sum_products x x).

(** [x / n]: every component divided by the scalar [n]. *)
Definition divide (x : Vector) (n : float) : Vector :=
  map (fun c => SFdiv prec emax c n) x.

(** [n == 0]. *)
Definition eq_zero (n : float) : bool := SFeqb n zero.

(** An integer as a float of this dtype. *)
Definition of_Z (n : Z) : float := binary_normalize prec emax n 0 false.
End Dtype.

(** [x.astype('float32')], component by component: round to nearest. *)
Definition to_float32 (c : float) : float :=
  match c with
  | S754_finite s m e => binary_round 24 128 s m e
  | _ => c
  end.
Definition astype_float32 (x : Vector) : Vector := map to_float32 x.
End np.

(** ** Metadata *)

(** A metadata value: a number, a string or a flag. *)
Inductive scalar :=
  | SInt (n : Z)
  | SStr (s : string)
  | SBool (b : bool).

(** A metadata dict, from string keys to scalar values. *)
Abbreviation Metadata := (gmap string scalar).

(** [metadata or {}] for an optional dict: [None] and the empty dict are
    both falsy. *)
Definition or_empty (metadata : option Metadata) : Metadata :=
  match metadata with
  | Some m => if decide (m = ∅) then ∅ else m
  | None => ∅
  end.

(** ** exercise_1_simple-rag-system/src/vector_store.py *)

Module Exercise1.

Record Document := {
  id : Z;
  text : string;
  embedding : Vector;
  metadata : Metadata
}.

Record VectorStore := {
  documents : list Document;
  next_id : Z
}.

(** [VectorStore()] *)
Definition init : VectorStore := {| documents := []; next_id := 0 |}.

Section Dtype.
Variables prec emax : Z.

Definition _cosine_similarity (vec1 vec2 : Vector) : result float :=
  match np.dot prec emax vec1 vec2 with
  | Raise e => Raise e
  | Ok dot_product =>
      let norm1 := np.linalg_norm prec emax vec1 in
      let norm2 := np.linalg_norm prec emax vec2 in
      if np.eq_zero norm1 || np.eq_zero norm2 then Ok np.zero
      else Ok (SFdiv prec emax dot_product (SFmul prec emax norm1 norm2))
  end.

Definition add (text : string) (embedding : Vector)
    (metadata : option Metadata) : M VectorStore Z :=
  self <- get ;;
  let doc := {| id := next_id self; text := text; embedding := embedding;
                metadata := or_empty metadata |} in
  put {| documents := documents self ++ [doc]; next_id := next_id self |} ;;;
  self <- get ;;
  put {| documents := documents self; next_id := next_id self + 1 |} ;;;
  ret (id doc).

Definition search (query_embedding : Vector) (top_k : Z)
    : M VectorStore (list (Document * float)) :=
  self <- get ;;
  match documents self with
  | [] => ret []
  | _ =>
      similarities <-
        for_each (documents self) []
          (fun similarities doc =>
             sim <- lift (_cosine_similarity query_embedding (embedding doc)) ;;
             ret (similarities ++ [(doc, sim)])) ;;
      let similarities := sort_reverse SFltb snd similarities in
      ret (slice_to top_k similarities)
  end.
End Dtype.
End Exercise1.

(** ** faiss.IndexFlatIP

    The library is not part of the repository.  Its exact inner-product index
    is modelled after its documented behaviour and its Python wrapper:
    [add] and [search] assert the dimension of their argument, [search]
    asserts [k > 0], scans every stored vector and answers, per query, the
    [k] largest inner products in decreasing order with their positions,
    padded with the label [-1] where fewer than [k] results exist.  A result
    enters the answer only if its score is above the heap's initial value,
    the lowest float32; a NaN score therefore never does.  Equal scores are
    reported in the order of their positions. *)

(** A two-dimensional float array of shape [(length rows, ncols)]. *)
Record ndarray2 := {
  ncols : Z;
  rows : list Vector
}.

(** [x.reshape(1, -1)] of a one-dimensional array. *)
Definition reshape_row (x : Vector) : ndarray2 :=
  {| ncols := Z.of_nat (length x); rows := [x] |}.

Module faiss.

Record IndexFlatIP := {
  d : Z;
  xb : list Vector
}.

(** [faiss.IndexFlatIP(dimension)] *)
Definition new (dimension : Z) : IndexFlatIP := {| d := dimension; xb := [] |}.

Definition ntotal (ix : IndexFlatIP) : Z := Z.of_nat (length (xb ix)).

Definition add (ix : IndexFlatIP) (x : ndarray2) : result IndexFlatIP :=
  if decide (ncols x = d ix) then Ok {| d := d ix; xb := xb ix ++ rows x |}
  else Raise AssertionError.

(** [-FLT_MAX], the initial value of the result heap. *)
Definition lowest : float := S754_finite true 16777215 104.

Definition inner_product (q v : Vector) : float := np.sum_products 24 128 q v.

Definition search_row (ix : IndexFlatIP) (k : Z) (q : Vector)
    : list float * list Z :=
  let scored := imap (fun i v => (inner_product q v, Z.of_nat i)) (xb ix) in
  let kept := filter (fun c => SFltb lowest c.1 = true) scored in
  let top := take (Z.to_nat k) (sort_reverse SFltb fst kept) in
  let answer := top ++ replicate (Z.to_nat k - length top)%nat (lowest, -1) in
  (answer.*1, answer.*2).

(** [D, I = index.search(x, k)]: one row of scores and one row of labels
    per query. *)
Definition search (ix : IndexFlatIP) (x : ndarray2) (k : Z)
    : result (list (list float) * list (list Z)) :=
  if decide (ncols x = d ix) then
    if decide (0 < k) then
      let answers := map (search_row ix k) (rows x) in
      Ok (answers.*1, answers.*2)
    else Raise AssertionError
  else Raise AssertionError.

End faiss.

(** ** exercise_2_pdf-rag-system/src/vector_store.py *)

Module Exercise2.

(** An entry of [self.documents]: the dict with the keys ["text"] and
    ["metadata"]. *)
Record Doc := {
  text : string;
  metadata : Metadata
}.

Record VectorStore := {
  dimension : Z;
  index : faiss.IndexFlatIP;
  documents : list Doc
}.

(** [VectorStore(dimension)] *)
Definition init (dimension : Z) : VectorStore :=
  {| dimension := dimension; index := faiss.new dimension; documents := [] |}.

Definition set_index (ix : faiss.IndexFlatIP) (self : VectorStore) : VectorStore :=
  {| dimension := dimension self; index := ix; documents := documents self |}.

Definition set_documents (ds : list Doc) (self : VectorStore) : VectorStore :=
  {| dimension := dimension self; index := index self; documents := ds |}.

(** [self.documents.append(doc)] *)
Definition documents_append (doc : Doc) : M VectorStore unit :=
  self <- get ;; put (set_documents (documents self ++ [doc]) self).

(** [metadatas or [{}] * len(texts)] *)
Definition or_empty_dicts (metadatas : option (list Metadata)) (n : nat)
    : list Metadata :=
  match metadatas with
  | Some (m :: ms) => m :: ms
  | _ => replicate n ∅
  end.

Section Dtype.
(** The dtype of the arrays handed to the store. *)
Variables prec emax : Z.

(** [v / np.linalg.norm(v)] *)
Definition normalize (v : Vector) : Vector :=
  np.divide prec emax v (np.linalg_norm prec emax v).

Definition add (text : string) (embedding : Vector)
    (metadata : option Metadata) : M VectorStore Z :=
  let embedding := normalize embedding in
  let embedding := reshape_row (np.astype_float32 embedding) in
  self <- get ;;
  ix <- lift (faiss.add (index self) embedding) ;;
  put (set_index ix self) ;;;
  documents_append {| text := text; metadata := or_empty metadata |} ;;;
  self <- get ;;
  ret (Z.of_nat (length (documents self)) - 1).

Definition add_batch (texts : list string) (embeddings : ndarray2)
    (metadatas : option (list Metadata)) : M VectorStore unit :=
  let normalized :=
    {| ncols := ncols embeddings;
       rows := map (fun v => np.astype_float32 (normalize v)) (rows embeddings) |} in
  self <- get ;;
  ix <- lift (faiss.add (index self) normalized) ;;
  put (set_index ix self) ;;;
  let metadatas := or_empty_dicts metadatas (length texts) in
  for_each (zip texts metadatas) tt
    (fun _ tm => documents_append {| text := tm.1; metadata := tm.2 |}).

Definition search (query_embedding : Vector) (top_k : Z)
    : M VectorStore (list (Doc * float)) :=
  self <- get ;;
  if faiss.ntotal (index self) =? 0 then ret []
  else
    let query := normalize query_embedding in
    let query := reshape_row (np.astype_float32 query) in
    si <- lift (faiss.search (index self) query
                  (Z.min top_k (faiss.ntotal (index self)))) ;;
    scores0 <- lift (getitem si.1 0) ;;
    indices0 <- lift (getitem si.2 0) ;;
    (* float(score) widens the float32 to a Python float exactly: the
       score keeps its value. *)
    for_each (zip scores0 indices0) []
      (fun results si =>
         let '(score, idx) := si in
         if 0 <=? idx then
           doc <- lift (getitem (documents self) idx) ;;
           ret (results ++ [(doc, score)])
         else ret results).
End Dtype.

Definition count : M VectorStore Z :=
  self <- get ;; ret (Z.of_nat (length (documents self))).

(** *** Persistence

    The store and the files it reads and writes.  A directory is the set
    of file names below it, so [path.mkdir(parents=True, exist_ok=True)]
    has nothing to do.  The two file formats are those of
    [faiss.write_index]/[faiss.read_index] and [json.dump]/[json.load];
    they are parameters of the model. *)
Section Persistence.
Context {bytes : Type}.
Variable write_index : faiss.IndexFlatIP -> bytes.
Variable read_index : bytes -> option faiss.IndexFlatIP.
Variable json_dump : list Doc -> bytes.
Variable json_load : bytes -> option (list Doc).

Record World := {
  self : VectorStore;
  disk : gmap string bytes
}.

(** [path / name] *)
Definition path_join (path name : string) : string :=
  (path +:+ "/" +:+ name)%string.

Definition write_file (name : string) (content : bytes) : M World unit :=
  w <- get ;;
  put {| self := self w; disk := <[name := content]> (disk w) |}.

Definition update_self (f : VectorStore -> VectorStore) : M World unit :=
  w <- get ;; put {| self := f (self w); disk := disk w |}.

(** [faiss.read_index(name)] *)
Definition faiss_read_index (name : string) : M World faiss.IndexFlatIP :=
  w <- get ;;
  match disk w !! name with
  | None => raise RuntimeError
  | Some content =>
      match read_index content with
      | Some ix => ret ix
      | None => raise RuntimeError
      end
  end.

(** [with open(name, "r") as f: json.load(f)] *)
Definition open_json_load (name : string) : M World (list Doc) :=
  w <- get ;;
  match disk w !! name with
  | None => raise FileNotFoundError
  | Some content =>
      match json_load content with
      | Some ds => ret ds
      | None => raise JSONDecodeError
      end
  end.

Definition save (path : string) : M World unit :=
  w <- get ;;
  write_file (path_join path "index.faiss") (write_index (index (self w))) ;;;
  w <- get ;;
  write_file (path_join path "documents.json") (json_dump (documents (self w))).

Definition load (path : string) : M World unit :=
  ix <- faiss_read_index (path_join path "index.faiss") ;;
  update_self (set_index ix) ;;;
  ds <- open_json_load (path_join path "documents.json") ;;
  update_self (set_documents ds).
End Persistence.

End Exercise2.

(** ** Python strings

    A text is a [string]: a sequence of characters with code points below
    256, so that [len] is [String.length]. *)

(** The newline character. *)
Definition nl : string := String (Ascii.ascii_of_nat 10) EmptyString.

(** [str(n)] of an integer. *)
Definition str_int (n : Z) : string := NilZero.string_of_int (Z.to_int n).

(** [sep.join(parts)] *)
Fixpoint join (sep : string) (parts : list string) : string :=
  match parts with
  | [] => EmptyString
  | [p] => p
  | p :: ps => (p +:+ sep +:+ join sep ps)%string
  end.

(** [c * n] for a one-character string. *)
Definition repeat_string (c : string) (n : nat) : string :=
  foldr String.append EmptyString (replicate n c).

(** [c.isspace()] for a character below 256: the ASCII white space, the
    separators [\x1c] to [\x1f], [\x85] and [\xa0]. *)
Definition isspace (c : Ascii.ascii) : bool :=
  let n := Ascii.N_of_ascii c in
  ((9 <=? n) && (n <=? 13) || (28 <=? n) && (n <=? 32) || (n =? 133) || (n =? 160))%N.

(** [s.lstrip()], [s.rstrip()] and [s.strip()] *)
Fixpoint lstrip (s : string) : string :=
  match s with
  | EmptyString => EmptyString
  | String c s' => if isspace c then lstrip s' else s
  end.

Fixpoint rstrip (s : string) : string :=
  match s with
  | EmptyString => EmptyString
  | String c s' =>
      match rstrip s' with
      | EmptyString => if isspace c then EmptyString else String c EmptyString
      | r => String c r
      end
  end.

Definition strip (s : string) : string := rstrip (lstrip s).

(** An index of a slice of a sequence of length [len], as Python places it:
    a negative index counts from the end, and the result is clipped to the
    sequence. *)
Definition slice_index (i len : Z) : Z :=
  if i <? 0 then Z.max (i + len) 0 else Z.min i len.

(** [s[start:stop]] *)
Definition slice (start stop : Z) (s : string) : string :=
  let len := Z.of_nat (String.length s) in
  let a := slice_index start len in
  let b := slice_index stop len in
  String.substring (Z.to_nat a) (Z.to_nat (b - a)) s.

(** ** exercise_1_simple-rag-system/src/rag_pipeline.py

    The tokenizer, the embedding model and the language model are
    libraries outside the repository: what they answer is a parameter.  The
    pipeline's only mutable part is its vector store, which is the state
    of its methods. *)
Module Pipeline1.
Section Models.
(** The dtype of the embeddings. *)
Variables prec emax : Z.
(** [self.tokenizer.count_tokens] *)
Variable count_tokens : string -> Z.
(** [self.embedding_model.embed] *)
Variable embed : string -> Vector.
(** [f"{score:.2f}"] *)
Variable format_2f : float -> string.
(** [self.llm.generate_with_context], or [None] where the pipeline runs
    without a language model ([use_llm] is then [False]). *)
Variable llm : option (string -> string -> string).

Definition add_document (text : string) (metadata : option Metadata)
    : M Exercise1.VectorStore Z :=
  let token_count := count_tokens text in
  let embedding := embed text in
  doc_id <- Exercise1.add text embedding
              (Some (<["token_count" := SInt token_count]> (or_empty metadata))) ;;
  ret doc_id.

Definition add_documents (texts : list string) : M Exercise1.VectorStore (list Z) :=
  for_each texts []
    (fun ids text => doc_id <- add_document text None ;; ret (ids ++ [doc_id])).

Definition retrieve (query : string) (top_k : Z)
    : M Exercise1.VectorStore (list (string * float)) :=
  let query_embedding := embed query in
  results <- Exercise1.search prec emax query_embedding top_k ;;
  ret (map (fun ds : Exercise1.Document * float => (Exercise1.text ds.1, ds.2)) results).

Definition query (question : string) (top_k : Z) : M Exercise1.VectorStore string :=
  retrieved <- retrieve question top_k ;;
  match retrieved with
  | [] => ret "No relevant documents found in the knowledge base."%string
  | _ =>
      let context_parts :=
        imap (fun i (ts : string * float) =>
                ("[Document " +:+ str_int (Z.of_nat i + 1) +:+ " (relevance: " +:+
                 format_2f ts.2 +:+ ")]" +:+ nl +:+ ts.1)%string) retrieved in
      let context := join (nl +:+ nl) context_parts in
      match llm with
      | Some generate_with_context => ret (generate_with_context question context)
      | None =>
          ret ("Retrieved Context:" +:+ nl +:+ repeat_string "-" 40 +:+ nl +:+ context)%string
      end
  end.
End Models.
End Pipeline1.

(** ** exercise_2_pdf-rag-system/src/pdf_loader.py *)

Module pdf_loader.

(** A chunk: the dict with the keys ["text"], ["page"], ["chunk"] and
    ["source"]. *)
Record Chunk := {
  text : string;
  page : Z;
  chunk : Z;
  source : string
}.

Section Files.
(** The PDF files that exist, each with what [page.extract_text()] gives
    for its pages in order: [None] or a string.  pdfplumber is not part of
    the repository. *)
Variable pdfs : gmap string (list (option string)).
(** [Path(pdf_path).name] *)
Variable path_name : string -> string.

(** The [while] loop over one page.  [fuel] bounds the number of times the
    loop condition is evaluated: [None] says that the loop has not ended
    within it. *)
Fixpoint split_page (fuel : nat) (chunk_size overlap : Z) (page_text : string)
    (page_num : Z) (name : string) (start : Z) (chunks : list Chunk)
    (chunk_index : Z) : option (list Chunk * Z) :=
  match fuel with
  | O => None
  | S fuel' =>
      if start <? Z.of_nat (String.length page_text) then
        let end_ := start + chunk_size in
        let chunk_text := strip (slice start end_ page_text) in
        let '(chunks, chunk_index) :=
          if decide (chunk_text = EmptyString) then (chunks, chunk_index)
          else (chunks ++ [{| text := chunk_text; page := page_num;
                              chunk := chunk_index; source := name |}],
                chunk_index + 1) in
        split_page fuel' chunk_size overlap page_text page_num name
          (end_ - overlap) chunks chunk_index
      else Some (chunks, chunk_index)
  end.

(** The [for] loop over the pages, from page [page_num] on. *)
Fixpoint load_pages (fuel : nat) (chunk_size overlap : Z) (name : string)
    (pages : list (option string)) (page_num : Z) (chunks : list Chunk)
    (chunk_index : Z) : option (list Chunk) :=
  match pages with
  | [] => Some chunks
  | extracted :: pages' =>
      match extracted with
      | None | Some EmptyString =>
          load_pages fuel chunk_size overlap name pages' (page_num + 1)
            chunks chunk_index
      | Some page_text =>
          match split_page fuel chunk_size overlap page_text page_num name 0
                  chunks chunk_index with
          | None => None
          | Some (chunks, chunk_index) =>
              load_pages fuel chunk_size overlap name pages' (page_num + 1)
                chunks chunk_index
          end
      end
  end.

(** [load_pdf(pdf_path, chunk_size, overlap)]; the defaults are
    [chunk_size = 500] and [overlap = 50]. *)
Definition load_pdf (fuel : nat) (pdf_path : string) (chunk_size overlap : Z)
    : option (result (list Chunk)) :=
  match pdfs !! pdf_path with
  | None => Some (Raise FileNotFoundError)
  | Some pages =>
      match load_pages fuel chunk_size overlap (path_name pdf_path) pages 1 [] 0 with
      | None => None
      | Some chunks => Some (Ok chunks)
      end
  end.
End Files.
End pdf_loader.

(** ** exercise_2_pdf-rag-system/src/rag_pipeline.py *)

(** [str(v)] of a metadata value. *)
Definition str_scalar (v : scalar) : string :=
  match v with
  | SInt n => str_int n
  | SStr s => s
  | SBool true => "True"
  | SBool false => "False"
  end.

Module Pipeline2.
Section Models.
Variables prec emax : Z.
Variable pdfs : gmap string (list (option string)).
Variable path_name : string -> string.
(** [self.embedding_model.embed] and [embed_batch] *)
Variable embed : string -> Vector.
Variable embed_batch : list string -> ndarray2.
(** [self.llm.generate_answer], or [None] without a language model. *)
Variable llm : option (string -> string -> string).

(** [None]: [load_pdf] has not returned within [fuel]. *)
Definition index_pdf (fuel : nat) (pdf_path : string)
    : option (M Exercise2.VectorStore Z) :=
  match pdf_loader.load_pdf pdfs path_name fuel pdf_path 500 50 with
  | None => None
  | Some loaded =>
      Some (chunks <- lift loaded ;;
            match chunks with
            | [] => ret 0
            | _ =>
                let texts := map pdf_loader.text chunks in
                let metadatas :=
                  map (fun c => ({[ "page" := SInt (pdf_loader.page c);
                                    "source" := SStr (pdf_loader.source c) ]} : Metadata))
                      chunks in
                let embeddings := embed_batch texts in
                Exercise2.add_batch prec emax texts embeddings (Some metadatas) ;;;
                ret (Z.of_nat (length chunks))
            end)
  end.

Definition retrieve (query : string) (top_k : Z)
    : M Exercise2.VectorStore (list (string * Metadata * float)) :=
  let query_embedding := embed query in
  results <- Exercise2.search prec emax query_embedding top_k ;;
  ret (map (fun ds : Exercise2.Doc * float =>
              (Exercise2.text ds.1, Exercise2.metadata ds.1, ds.2)) results).

Definition query (question : string) (top_k : Z) : M Exercise2.VectorStore string :=
  retrieved <- retrieve question top_k ;;
  match retrieved with
  | [] => ret "No relevant documents found."%string
  | _ =>
      let context_parts :=
        map (fun tms : string * Metadata * float =>
               let '(text, metadata, score) := tms in
               let source := from_option str_scalar "unknown" (metadata !! "source") in
               let page := from_option str_scalar "?" (metadata !! "page") in
               ("[" +:+ source +:+ ", Page " +:+ page +:+ "]" +:+ nl +:+ text)%string)
            retrieved in
      let context := join (nl +:+ nl) context_parts in
      match llm with
      | Some generate_answer => ret (generate_answer question context)
      | None =>
          ret ("Retrieved Context:" +:+ nl +:+ repeat_string "-" 40 +:+ nl +:+ context)%string
      end
  end.
End Models.
End Pipeline2.

(** * Notions used in the statements *)

(** Scores in ranking order: no score is greater than one before it. *)
Definition descending (scores : list float) : Prop :=
  StronglySorted (fun x y => SFltb x y = false) scores.

(** A position in the float order: class, then exponent, then mantissa.
    The two zeros share a position and NaN has none of its own. *)
Definition rank (x : float) : Z * Z * Z :=
  match x with
  | S754_infinity true => (-2, 0, 0)
  | S754_finite true m e => (-1, - e, - Z.pos m)
  | S754_zero _ => (0, 0, 0)
  | S754_finite false m e => (1, e, Z.pos m)
  | S754_infinity false => (2, 0, 0)
  | S754_nan => (3, 0, 0)
  end.

Definition lex_lt (a b : Z * Z * Z) : Prop :=
  a.1.1 < b.1.1 \/
  (a.1.1 = b.1.1 /\ (a.1.2 < b.1.2 \/ (a.1.2 = b.1.2 /\ a.2 < b.2))).




(** A float that is a number: a zero or a finite value, neither an infinity
    nor NaN. *)
Definition finite (x : float) : bool :=
  match x with
  | S754_zero _ | S754_finite _ _ _ => true
  | _ => false
  end.


Module Exercise1Spec.
Import Exercise1.
Section Dtype.
Variables prec emax : Z.

(** The value [_cosine_similarity] computes once [np.dot] has accepted the
    shapes. *)
Definition cosine_value (vec1 vec2 : Vector) : float :=
  let norm1 := np.linalg_norm prec emax vec1 in
  let norm2 := np.linalg_norm prec emax vec2 in
  if np.eq_zero norm1 || np.eq_zero norm2 then np.zero
  else SFdiv prec emax (np.sum_products prec emax vec1 vec2)
                       (SFmul prec emax norm1 norm2).

(** Every stored record with its score, in insertion order. *)
Definition scored (q : Vector) (docs : list Document) : list (Document * float) :=
  map (fun doc => (doc, cosine_value q (embedding doc))) docs.

(** All records ranked by score. *)
Definition ranking (q : Vector) (docs : list Document) : list (Document * float) :=
  sort_reverse SFltb snd (scored q docs).

(** The stored embeddings have the length of the query. *)
Definition same_dimension (q : Vector) (s : VectorStore) : Prop :=
  Forall (fun doc => length (embedding doc) = length q) (documents s).

(** No record's score against the query is NaN. *)
Definition scores_ordered (q : Vector) (s : VectorStore) : Prop :=
  Forall (fun doc => cosine_value q (embedding doc) <> S754_nan) (documents s).
End Dtype.
End Exercise1Spec.

Module Exercise2Spec.
Import Exercise2.

(** Vector [i] of the index belongs to record [i] of the list. *)
Definition aligned (s : VectorStore) : Prop :=
  length (faiss.xb (index s)) = length (documents s).

(** Every stored vector has the dimension of the index. *)
Definition uniform (ix : faiss.IndexFlatIP) : Prop :=
  Forall (fun v => Z.of_nat (length v) = faiss.d ix) (faiss.xb ix).

(** The results faiss reports for one query, before padding. *)
Definition hits (ix : faiss.IndexFlatIP) (k : Z) (q : Vector) : list (float * Z) :=
  take (Z.to_nat k)
    (sort_reverse SFltb fst
       (filter (fun c => SFltb faiss.lowest c.1 = true)
          (imap (fun i v => (faiss.inner_product q v, Z.of_nat i)) (faiss.xb ix)))).

(** A vector as it reaches faiss: divided by its norm, as float32. *)
Definition prepared (prec emax : Z) (q : Vector) : Vector :=
  np.astype_float32 (normalize prec emax q).
End Exercise2Spec.

(** ** Invariants of the stores, the loader and the pipelines *)

Module Exercise1Inv.
Import Exercise1.
(** Identities are positions: the counter is the number of records, and
    record [i] has the identity [i]. *)
Definition well_numbered (s : VectorStore) : Prop :=
  next_id s = Z.of_nat (length (documents s)) /\
  forall i doc, documents s !! i = Some doc -> id doc = Z.of_nat i.
End Exercise1Inv.

(** Two scores that [<] does not tell apart. *)
Definition same_score (c x : float) : Prop :=
  SFltb x c = false /\ SFltb c x = false.

Global Instance same_score_dec c x : Decision (same_score c x).
Proof. unfold same_score. apply _. Defined.

Module Exercise2Inv.
Import Exercise2.
(** [metadatas] gives every text a dict: it is absent or empty (each text
    then gets [{}]), or at least as long as [texts]. *)
Definition covers (metadatas : option (list Metadata)) (n : nat) : Prop :=
  match metadatas with
  | Some (m :: ms) => (n <= length (m :: ms))%nat
  | _ => True
  end.
End Exercise2Inv.

(** No white space at either end. *)
Definition stripped (s : string) : Prop := lstrip s = s /\ rstrip s = s.

Module pdf_loader_spec.
Import pdf_loader.
(** The chunk is a window of [chunk_size] characters of its page, stripped,
    and names the file. *)
Definition window_of (pages : list (option string)) (chunk_size : Z)
    (name : string) (c : Chunk) : Prop :=
  exists page_text start,
    1 <= page c /\
    pages !! Z.to_nat (page c - 1) = Some (Some page_text) /\
    0 <= start < Z.of_nat (String.length page_text) /\
    text c = strip (slice start (start + chunk_size) page_text) /\
    source c = name.

(** The chunks are numbered by their position in the list. *)
Definition numbered (chunks : list Chunk) : Prop :=
  forall i c, chunks !! i = Some c -> chunk c = Z.of_nat i.
End pdf_loader_spec.

(** The record [add_document] stores for a text without metadata. *)
Definition counted (count_tokens : string -> Z) (embed : string -> Vector)
    (n : Z) (text : string) : Exercise1.Document :=
  {| Exercise1.id := n; Exercise1.text := text; Exercise1.embedding := embed text;
     Exercise1.metadata := {[ "token_count" := SInt (count_tokens text) ]} |}.

(** The record [index_pdf] stores for a chunk. *)
Definition chunk_record (c : pdf_loader.Chunk) : Exercise2.Doc :=
  {| Exercise2.text := pdf_loader.text c;
     Exercise2.metadata := {[ "page" := SInt (pdf_loader.page c);
                              "source" := SStr (pdf_loader.source c) ]} |}.

(** * Example data *)

(** The state a method leaves behind. *)
Definition exec {S A} (c : M S A) (s : S) : S := (c s).2.

Module Examples.
Definition f64 : Z -> float := np.of_Z 53 1024.
Definition f32 : Z -> float := np.of_Z 24 128.

(** The exact index after adding ["A"], ["B"] and ["C"] with the
    embeddings [[1, 0]], [[0, 1]] and [[1, 1]]. *)
Definition exact3 : Exercise1.VectorStore :=
  exec (Exercise1.add "C" [f64 1; f64 1] None)
    (exec (Exercise1.add "B" [f64 0; f64 1] None)
       (exec (Exercise1.add "A" [f64 1; f64 0] None) Exercise1.init)).

(** The same three records in a normalized index of dimension 2. *)
Definition normalized3 : Exercise2.VectorStore :=
  exec (Exercise2.add 24 128 "C" [f32 1; f32 1] None)
    (exec (Exercise2.add 24 128 "B" [f32 0; f32 1] None)
       (exec (Exercise2.add 24 128 "A" [f32 1; f32 0] None) (Exercise2.init 2))).

(** A file format for the examples: a file holds the index or the record
    list it was written from. *)
Inductive artifact :=
  | FaissFile (ix : faiss.IndexFlatIP)
  | JsonFile (ds : list Exercise2.Doc).

Definition write_index : faiss.IndexFlatIP -> artifact := FaissFile.
Definition read_index (content : artifact) : option faiss.IndexFlatIP :=
  match content with FaissFile ix => Some ix | JsonFile _ => None end.
Definition json_dump : list Exercise2.Doc -> artifact := JsonFile.
Definition json_load (content : artifact) : option (list Exercise2.Doc) :=
  match content with JsonFile ds => Some ds | FaissFile _ => None end.

(** A directory ["store"] that holds a saved index but no sidecar. *)
Definition disk_without_sidecar : gmap string artifact :=
  {[ Exercise2.path_join "store" "index.faiss" :=
       write_index (Exercise2.index normalized3) ]}.
End Examples.

(** Three records of dimension 2 and a query, all finite in float64.  The
    dot product of the query with the second record, [2^511 * 2^1000],
    overflows, and so does the square under that record's norm: its score
    is [inf / inf], which is NaN. *)
Module OverflowExample.
Definition store : Exercise1.VectorStore :=
  exec (Exercise1.add "E3" [Examples.f64 1; Examples.f64 0] None)
    (exec (Exercise1.add "E2" [Examples.f64 (2 ^ 1000); Examples.f64 0] None)
       (exec (Exercise1.add "E1" [Examples.f64 1; Examples.f64 1] None)
          Exercise1.init)).

Definition query : Vector := [Examples.f64 (2 ^ 511); Examples.f64 0].
End OverflowExample.

(** Data for the pipelines and the loader. *)
Module PipelineExamples.
(** The normalized index after a batch of five texts with two metadata
    dicts: five vectors, two records. *)
Definition misaligned : Exercise2.VectorStore :=
  let row := [Examples.f32 1; Examples.f32 0] in
  exec (Exercise2.add_batch 24 128 ["t1"; "t2"; "t3"; "t4"; "t5"]
          {| ncols := 2; rows := [row; row; row; row; row] |}
          (Some [{[ "page" := SInt 1 ]}; {[ "page" := SInt 2 ]}]))
    (Exercise2.init 2).

(** A tokenizer and two embedding models for the examples. *)
Definition count_tokens (text : string) : Z := Z.of_nat (String.length text).
Definition embed (text : string) : Vector :=
  [Examples.f64 (Z.of_nat (String.length text)); Examples.f64 1].
Definition embed_batch (texts : list string) : ndarray2 :=
  {| ncols := 2;
     rows := map (fun text => [Examples.f32 (Z.of_nat (String.length text));
                               Examples.f32 1]) texts |}.

(** A file of three pages, the second without text, and a file whose
    pages have no text but white space. *)
Definition pdfs : gmap string (list (option string)) :=
  {[ "a.pdf" := [Some "hello world"; None; Some " ab "];
     "blank.pdf" := [Some "   "; None] ]}.
Definition path_name (path : string) : string := path.
End PipelineExamples.

(** * Lemmas *)

(** ** The method monad *)

Lemma for_each_frame {S A B} (body : B -> A -> M S B) xs :
  (forall acc x s, (body acc x s).2 = s) ->
  forall acc s, (for_each xs acc body s).2 = s.
Proof.
  intros Hbody. induction xs as [|x xs IH]; intros acc s; [done|].
  cbn [for_each]. unfold bind. specialize (Hbody acc x s).
  destruct (body acc x s) as [[acc'|e] s']; cbn in Hbody; subst; [apply IH|done].
Qed.

Lemma bind_get {S B} (k : S -> M S B) (s : S) : bind get k s = k s s.
Proof. reflexivity. Qed.

Lemma bind_lift {S A B} (r : result A) (k : A -> M S B) (s : S) :
  bind (lift r) k s = match r with Ok a => k a s | Raise e => (Raise e, s) end.
Proof. by destruct r. Qed.

Lemma for_each_indep {S A B} (body : B -> A -> M S B) xs :
  (forall acc x s s', (body acc x s).1 = (body acc x s').1) ->
  (forall acc x s, (body acc x s).2 = s) ->
  forall acc s s', (for_each xs acc body s).1 = (for_each xs acc body s').1.
Proof.
  intros Hres Hframe. induction xs as [|x xs IH]; intros acc s s'; [done|].
  cbn [for_each]. unfold bind.
  pose proof (Hres acc x s s') as H1.
  pose proof (Hframe acc x s) as H2. pose proof (Hframe acc x s') as H3.
  destruct (body acc x s) as [[a|e] t], (body acc x s') as [[a'|e'] t'];
    cbn in H1, H2, H3; subst; try done.
  injection H1 as ->. apply IH.
Qed.

(** ** The float order *)

Lemma SFltb_rank x y :
  x <> S754_nan -> y <> S754_nan ->
  SFltb x y = true <-> lex_lt (rank x) (rank y).
Proof.
  intros Hx Hy. unfold SFltb, lex_lt.
  destruct x as [[]|[]| |[] mx ex], y as [[]|[]| |[] my ey]; try congruence;
    cbn [SFcompare rank fst snd];
    try (split; [discriminate | lia]);
    try (split; [lia | reflexivity]).
  all: change (Pos.compare_cont Eq mx my) with (Pos.compare mx my).
  all: destruct (Z.compare_spec ex ey); try destruct (Pos.compare_spec mx my);
    cbn [CompOpp]; split; try discriminate; try reflexivity; try lia.
Qed.

Lemma SFltb_nan_r x : SFltb x S754_nan = false.
Proof. by destruct x. Qed.

Lemma SFltb_asym x y : SFltb x y = true -> SFltb y x = false.
Proof.
  intros H.
  destruct (decide (x = S754_nan)) as [->|Hx]; [done|].
  destruct (decide (y = S754_nan)) as [->|Hy]; [by rewrite SFltb_nan_r in H|].
  apply not_true_is_false. rewrite !SFltb_rank in * by done.
  unfold lex_lt in *. lia.
Qed.

Lemma SFltb_negtrans x y z :
  x <> S754_nan -> y <> S754_nan -> z <> S754_nan ->
  SFltb y x = false -> SFltb z y = false -> SFltb z x = false.
Proof.
  intros Hx Hy Hz H1 H2.
  apply not_true_iff_false in H1, H2. apply not_true_iff_false.
  rewrite !SFltb_rank in * by done. unfold lex_lt in *. lia.
Qed.

Lemma SFltb_not_nan x y : SFltb x y = true -> y <> S754_nan.
Proof. intros H ->. by rewrite SFltb_nan_r in H. Qed.

Lemma SFmul_comm prec emax x y : SFmul prec emax x y = SFmul prec emax y x.
Proof.
  destruct x as [sx|sx| |sx mx ex], y as [sy|sy| |sy my ey]; cbn [SFmul];
    rewrite ?(xorb_comm sx sy); try reflexivity.
  by rewrite (Pos.mul_comm mx my), (Z.add_comm ex ey).
Qed.

(** ** Sorting *)

Section SortFacts.
Context {A K : Type} (lt : K -> K -> bool) (key : A -> K) (P : K -> Prop).
Hypothesis lt_asym : forall x y, lt x y = true -> lt y x = false.
Hypothesis lt_negtrans : forall x y z, P x -> P y -> P z ->
  lt y x = false -> lt z y = false -> lt z x = false.

(** [x] may stand before [y] in ascending order. *)
Let key_le (x y : A) : Prop := lt (key y) (key x) = false.

Lemma insert_sorted_perm x l : insert_sorted lt key x l ≡ₚ x :: l.
Proof.
  induction l as [|y l IH]; [done|]. cbn [insert_sorted].
  destruct (lt (key y) (key x)); [|done].
  rewrite IH. apply Permutation_swap.
Qed.

Lemma sort_stable_perm l : sort_stable lt key l ≡ₚ l.
Proof.
  induction l as [|x l IH]; [done|]. cbn [sort_stable].
  by rewrite insert_sorted_perm, IH.
Qed.

Lemma sort_reverse_perm l : sort_reverse lt key l ≡ₚ l.
Proof.
  unfold sort_reverse.
  by rewrite reverse_Permutation, sort_stable_perm, reverse_Permutation.
Qed.

Lemma insert_sorted_sorted x l :
  P (key x) -> Forall (fun y => P (key y)) l ->
  StronglySorted key_le l -> StronglySorted key_le (insert_sorted lt key x l).
Proof.
  intros Hx HP Hl. induction Hl as [|y l Hl IH Hy]; cbn [insert_sorted].
  { repeat constructor. }
  apply Forall_cons in HP as [HPy HP].
  destruct (lt (key y) (key x)) eqn:Hlt.
  - constructor; [by apply IH|].
    rewrite insert_sorted_perm. constructor; [|done].
    by apply lt_asym.
  - constructor; [by constructor|].
    constructor; [done|].
    rewrite Forall_forall in Hy, HP |- *. intros z Hz.
    unfold key_le in *. eapply (lt_negtrans _ (key y)); eauto.
Qed.

Lemma sort_stable_sorted l :
  Forall (fun y => P (key y)) l -> StronglySorted key_le (sort_stable lt key l).
Proof.
  induction 1 as [|x l Hx Hl IH]; cbn [sort_stable]; [constructor|].
  apply insert_sorted_sorted; [done| |done].
  by rewrite sort_stable_perm.
Qed.

Lemma StronglySorted_reverse (R : relation A) l :
  StronglySorted R l -> StronglySorted (flip R) (reverse l).
Proof.
  induction 1 as [|x l Hl IH Hx]; [constructor|].
  rewrite reverse_cons. apply StronglySorted_app_2; [|done|repeat constructor].
  intros y z Hy Hz. apply list_elem_of_singleton in Hz as ->.
  rewrite elem_of_reverse in Hy. rewrite Forall_forall in Hx.
  unfold flip. by apply Hx.
Qed.

Lemma sort_reverse_sorted l :
  Forall (fun y => P (key y)) l ->
  StronglySorted (fun x y => lt (key x) (key y) = false) (sort_reverse lt key l).
Proof.
  intros HP. unfold sort_reverse.
  apply (StronglySorted_reverse key_le), sort_stable_sorted.
  by rewrite reverse_Permutation.
Qed.
End SortFacts.

Lemma StronglySorted_take {A} (R : relation A) n l :
  StronglySorted R l -> StronglySorted R (take n l).
Proof.
  intros Hl. rewrite <- (take_drop n l) in Hl.
  by apply StronglySorted_app_1_l in Hl.
Qed.

Lemma slice_to_take {A} (k : Z) (l : list A) :
  exists n, slice_to k l = take n l /\ (0 <= k -> n = Z.to_nat k).
Proof.
  unfold slice_to. destruct (0 <=? k) eqn:Hk.
  - by eexists.
  - eexists. split; [done|]. apply Z.leb_gt in Hk. lia.
Qed.

Lemma filter_all {A} (P : A -> Prop) `{!forall x, Decision (P x)} (l : list A) :
  Forall P l -> filter P l = l.
Proof.
  induction 1 as [|x l Hx Hl IH]; [done|].
  by rewrite filter_cons_True, IH.
Qed.

Lemma filter_none {A} (P : A -> Prop) `{!forall x, Decision (P x)} (l : list A) :
  Forall (fun x => ~ P x) l -> filter P l = [].
Proof.
  induction 1 as [|x l Hx Hl IH]; [done|].
  by rewrite filter_cons_False.
Qed.

(** ** numpy *)

Lemma sum_products_comm prec emax (a b : Vector) :
  np.sum_products prec emax a b = np.sum_products prec emax b a.
Proof.
  unfold np.sum_products. generalize np.zero as acc.
  revert b. induction a as [|x a IH]; intros [|y b] acc; try done.
  cbn [zip zip_with foldl fst snd]. rewrite (SFmul_comm _ _ x y). apply IH.
Qed.

(** ** Rounding: the product of two norms

    [SFsqrt] of a rounded sum is at least the square root of the smallest
    positive float, and the product of two such numbers does not round to
    zero. *)








Section Rounding.
Variables prec emax : Z.
Hypothesis prec_pos : 0 < prec.
Hypothesis prec_lt_emax : prec < emax.














End Rounding.


(** ** The exact index *)

Section Exercise1Facts.
Import Exercise1 Exercise1Spec.
Variables prec emax : Z.

Lemma cosine_similarity_eq (a b : Vector) :
  _cosine_similarity prec emax a b =
    if decide (length a = length b) then Ok (cosine_value prec emax a b)
    else Raise ValueError.
Proof.
  unfold _cosine_similarity, np.dot, cosine_value.
  destruct (decide (length a = length b)); [|done].
  by destruct (np.eq_zero _ || np.eq_zero _).
Qed.

Lemma search_loop q docs acc (s : VectorStore) :
  Forall (fun doc => length (embedding doc) = length q) docs ->
  for_each docs acc
    (fun similarities doc =>
       sim <- lift (_cosine_similarity prec emax q (embedding doc)) ;;
       ret (similarities ++ [(doc, sim)])) s
  = (Ok (acc ++ scored prec emax q docs), s).
Proof.
  intros Hdim. revert acc. induction Hdim as [|doc docs Hdoc Hdim IH]; intros acc.
  { cbn. by rewrite app_nil_r. }
  cbn [for_each]. unfold bind at 1. unfold bind at 1, lift, ret.
  rewrite cosine_similarity_eq, decide_True by done.
  rewrite IH. cbn [scored map]. by rewrite <- app_assoc.
Qed.

Lemma search_eq q k (s : VectorStore) :
  same_dimension q s ->
  search prec emax q k s = (Ok (slice_to k (ranking prec emax q (documents s))), s).
Proof.
  intros Hdim. unfold search, bind at 1, get.
  destruct (documents s) as [|doc docs] eqn:Hdocs.
  { unfold slice_to. cbn. by rewrite !take_nil, Tauto.if_same. }
  unfold bind at 1. rewrite search_loop by (by rewrite <- Hdocs).
  reflexivity.
Qed.

Lemma search_frame q k (s : VectorStore) : (search prec emax q k s).2 = s.
Proof.
  unfold search, bind at 1, get.
  destruct (documents s) as [|doc docs]; [done|].
  unfold bind at 1.
  match goal with |- context [for_each ?xs ?acc ?body s] =>
    assert (forall acc0 x s0, (body acc0 x s0).2 = s0) as Hbody
      by (intros acc0 x s0; unfold bind, lift, ret;
          by destruct (_cosine_similarity _ _ _ _));
    pose proof (for_each_frame body xs Hbody acc s) as Hloop;
    destruct (for_each xs acc body s) as [[r|e] s'] end;
  by cbn in Hloop |- *.
Qed.

Lemma ranking_perm q docs : ranking prec emax q docs ≡ₚ scored prec emax q docs.
Proof. apply sort_reverse_perm. Qed.

Lemma ranking_descending q docs :
  Forall (fun doc => cosine_value prec emax q (embedding doc) <> S754_nan) docs ->
  descending (ranking prec emax q docs).*2.
Proof.
  intros Hord. unfold descending, ranking.
  apply (StronglySorted_fmap snd (fun x y => SFltb x.2 y.2 = false)); [done|].
  apply (sort_reverse_sorted SFltb snd (fun x => x <> S754_nan)).
  - apply SFltb_asym.
  - apply SFltb_negtrans.
  - unfold scored. by rewrite Forall_fmap.
Qed.
End Exercise1Facts.

(** ** The normalized index *)

Section Exercise2Facts.
Import Exercise2 Exercise2Spec.
Variables prec emax : Z.

Lemma search_row_eq ix k q :
  faiss.search_row ix k q =
    let answer := hits ix k q ++
      replicate (Z.to_nat k - length (hits ix k q))%nat (faiss.lowest, -1) in
    (answer.*1, answer.*2).
Proof. reflexivity. Qed.

Lemma hits_elem ix k q h :
  h ∈ hits ix k q ->
  SFltb faiss.lowest h.1 = true /\
  exists i v, faiss.xb ix !! i = Some v /\ h = (faiss.inner_product q v, Z.of_nat i).
Proof.
  unfold hits. intros Hh. apply elem_of_take in Hh as (j & Hh & _).
  apply list_elem_of_lookup_2 in Hh.
  rewrite sort_reverse_perm in Hh.
  apply list_elem_of_filter in Hh as [Hlow Hh]. split; [done|].
  apply list_elem_of_lookup in Hh as [i Hi].
  rewrite list_lookup_imap in Hi.
  destruct (faiss.xb ix !! i) as [v|] eqn:Hv; [|done].
  exists i, v. split; [done|]. by inversion Hi.
Qed.

Lemma hits_descending ix k q : descending (hits ix k q).*1.
Proof.
  unfold descending, hits.
  apply (StronglySorted_fmap fst (fun x y => SFltb x.1 y.1 = false)); [done|].
  apply StronglySorted_take.
  apply (sort_reverse_sorted SFltb fst (fun x => x <> S754_nan)).
  - apply SFltb_asym.
  - apply SFltb_negtrans.
  - apply Forall_forall. intros c Hc.
    apply list_elem_of_filter in Hc as [Hc _]. by eapply SFltb_not_nan.
Qed.

Lemma hits_length ix k q :
  (length (hits ix k q) <= Z.to_nat k)%nat /\
  (length (hits ix k q) <= length (faiss.xb ix))%nat.
Proof.
  unfold hits. rewrite length_take. split; [lia|].
  etrans; [apply Nat.le_min_r|].
  rewrite sort_reverse_perm. etrans; [apply length_filter|].
  by rewrite length_imap.
Qed.

(** The loop of [search] over the reported scores and labels. *)
Lemma search_collect (docs : list Doc) entries acc (s : VectorStore) :
  Forall (fun e : float * Z => e.2 = -1 \/ (0 <= e.2 /\ (Z.to_nat e.2 < length docs)%nat))
         entries ->
  exists r,
    for_each entries acc
      (fun results si =>
         let '(score, idx) := si in
         if 0 <=? idx then
           doc <- lift (getitem docs idx) ;;
           ret (results ++ [(doc, score)])
         else ret results) s
    = (Ok (acc ++ r), s) /\
    r.*2 = (filter (fun e => 0 <= e.2) entries).*1 /\
    Forall (fun p => p.1 ∈ docs) r.
Proof.
  intros Hent. revert acc.
  induction Hent as [|[score idx] entries He Hent IH]; intros acc.
  { exists []. cbn. by rewrite app_nil_r. }
  cbn [for_each]. unfold bind at 1. cbn [snd] in He.
  destruct He as [->|[Hidx Hlt]].
  - cbn. destruct (IH acc) as (r & -> & Hr & Hdocs). exists r.
    split; [done|]. split; [|done].
    by rewrite decide_False by lia.
  - destruct (lookup_lt_is_Some_2 docs (Z.to_nat idx) Hlt) as [doc Hdoc].
    destruct (IH (acc ++ [(doc, score)])) as (r & Heq & Hr & Hdocs).
    exists ((doc, score) :: r). split; [|split].
    + rewrite (proj2 (Z.leb_le 0 idx)) by done.
      unfold bind at 1, lift at 1, getitem at 1. rewrite Hdoc.
      unfold ret at 1. etrans; [exact Heq|]. by rewrite <- app_assoc.
    + rewrite filter_cons_True by done. cbn. by rewrite Hr.
    + constructor; [|done]. by eapply list_elem_of_lookup_2.
Qed.

Lemma prepared_length q : length (prepared prec emax q) = length q.
Proof.
  unfold prepared, np.astype_float32, normalize, np.divide.
  by rewrite !length_map.
Qed.

Lemma search_empty q k (s : VectorStore) :
  faiss.ntotal (index s) = 0 -> search prec emax q k s = (Ok [], s).
Proof. intros H. unfold search, bind, get. by rewrite H. Qed.

Lemma search_ok q k (s : VectorStore) :
  aligned s -> Z.of_nat (length q) = faiss.d (index s) -> 0 < k ->
  exists r,
    search prec emax q k s = (Ok r, s) /\
    r.*2 = (hits (index s) (Z.min k (faiss.ntotal (index s)))
                 (prepared prec emax q)).*1 /\
    Forall (fun p => p.1 ∈ documents s) r.
Proof.
  intros Hal Hdim Hk.
  destruct (decide (faiss.ntotal (index s) = 0)) as [Hz|Hnz].
  { exists []. rewrite search_empty, Hz, Z.min_r by lia. done. }
  unfold search, bind at 1, get.
  rewrite (proj2 (Z.eqb_neq _ 0)) by done.
  fold (prepared prec emax q).
  unfold bind at 1, lift at 1, faiss.search.
  cbn [reshape_row ncols rows]. rewrite prepared_length.
  rewrite decide_True by done.
  rewrite decide_True by (unfold faiss.ntotal in *; lia).
  cbn [map fmap list_fmap fst snd].
  rewrite search_row_eq. cbn zeta. cbn [fst snd].
  unfold bind at 1, lift at 1, getitem at 1.
  unfold bind at 1, lift at 1, getitem at 1.
  change (Z.to_nat 0) with 0%nat. cbn [lookup list_lookup].
  rewrite zip_fst_snd.
  set (k' := Z.min k (faiss.ntotal (index s))).
  set (hs := hits (index s) k' (prepared prec emax q)).
  destruct (search_collect (documents s)
              (hs ++ replicate (Z.to_nat k' - length hs)%nat (faiss.lowest, -1))
              [] s) as (r & Heq & Hr & Hdocs).
  { apply Forall_app. split.
    - apply Forall_forall. intros h Hh.
      apply hits_elem in Hh as (_ & i & v & Hv & ->). right. cbn.
      apply lookup_lt_Some in Hv. rewrite Nat2Z.id, <- Hal. lia.
    - apply Forall_replicate. by left. }
  exists r. split; [exact Heq|]. split; [|done].
  rewrite Hr, filter_app, (filter_none _ (replicate _ _)), app_nil_r.
  2:{ apply Forall_replicate. cbn. lia. }
  f_equal. apply filter_all, Forall_forall. intros h Hh.
  apply hits_elem in Hh as (_ & i & v & _ & ->). cbn. lia.
Qed.

Lemma add_eq text v md (s : VectorStore) :
  Z.of_nat (length v) = faiss.d (index s) ->
  add prec emax text v md s =
    (Ok (Z.of_nat (length (documents s) + 1) - 1),
     {| dimension := dimension s;
        index := {| faiss.d := faiss.d (index s);
                    faiss.xb := faiss.xb (index s) ++ [prepared prec emax v] |};
        documents := documents s ++ [{| text := text; metadata := or_empty md |}] |}).
Proof.
  intros Hdim. unfold add, bind at 1, get, bind at 1, lift at 1, faiss.add.
  cbn [reshape_row ncols rows]. fold (prepared prec emax v).
  rewrite prepared_length, decide_True by done.
  cbn. by rewrite length_app.
Qed.

Lemma add_mismatch text v md (s : VectorStore) :
  Z.of_nat (length v) <> faiss.d (index s) ->
  add prec emax text v md s = (Raise AssertionError, s).
Proof.
  intros Hdim. unfold add, bind at 1, get, bind at 1, lift at 1, faiss.add.
  cbn [reshape_row ncols rows]. fold (prepared prec emax v).
  by rewrite prepared_length, decide_False by done.
Qed.

Lemma append_loop (pairs : list (string * Metadata)) (s : VectorStore) :
  for_each pairs tt
    (fun _ tm => documents_append {| text := tm.1; metadata := tm.2 |}) s
  = (Ok tt,
     set_documents
       (documents s ++ map (fun tm => {| text := tm.1; metadata := tm.2 |}) pairs) s).
Proof.
  revert s. induction pairs as [|tm pairs IH]; intros s.
  { cbn. rewrite app_nil_r. by destruct s. }
  cbn [for_each]. unfold bind at 1, documents_append at 1, bind at 1, get, put.
  rewrite IH. unfold set_documents. cbn. by rewrite <- app_assoc.
Qed.

Lemma add_batch_eq texts embeddings mds (s : VectorStore) :
  ncols embeddings = faiss.d (index s) ->
  add_batch prec emax texts embeddings mds s =
    (Ok tt,
     {| dimension := dimension s;
        index := {| faiss.d := faiss.d (index s);
                    faiss.xb := faiss.xb (index s) ++
                                map (prepared prec emax) (rows embeddings) |};
        documents := documents s ++
          map (fun tm => {| text := tm.1; metadata := tm.2 |})
              (zip texts (or_empty_dicts mds (length texts))) |}).
Proof.
  intros Hdim. unfold add_batch, bind at 1, get, bind at 1, lift at 1, faiss.add.
  cbn [ncols rows]. rewrite decide_True by done.
  unfold bind at 1, put. by rewrite append_loop.
Qed.

Lemma records_of_pairs (texts : list string) (mds : list Metadata) :
  map (fun tm : string * Metadata => {| text := tm.1; metadata := tm.2 |})
      (zip texts mds)
  = zip_with (fun t md => {| text := t; metadata := md |}) texts mds.
Proof.
  revert mds. induction texts as [|t texts IH]; intros [|md mds]; try done.
  cbn. f_equal. apply IH.
Qed.

(** With [metadatas] absent, [add_batch] leaves the store that one [add]
    per text, in order, leaves. *)
Lemma add_loop texts vectors (s : VectorStore) :
  Forall (fun v => Z.of_nat (length v) = faiss.d (index s)) vectors ->
  length vectors = length texts ->
  for_each (zip texts vectors) tt
    (fun _ tv => add prec emax tv.1 tv.2 None ;;; ret tt) s
  = (Ok tt,
     {| dimension := dimension s;
        index := {| faiss.d := faiss.d (index s);
                    faiss.xb := faiss.xb (index s) ++ map (prepared prec emax) vectors |};
        documents := documents s ++
                     map (fun t => {| text := t; metadata := ∅ |}) texts |}).
Proof.
  revert vectors s. induction texts as [|t texts IH]; intros [|v vectors] s Hdim Hlen;
    try done.
  { cbn. rewrite !app_nil_r. by destruct s as [? [] ?]. }
  apply Forall_cons in Hdim as [Hv Hdim].
  cbn [zip zip_with for_each fst snd]. unfold bind at 1, bind at 1.
  rewrite add_eq by done. unfold ret at 1.
  rewrite IH; [|done|by injection Hlen].
  cbn. by rewrite <- !app_assoc.
Qed.

Lemma add_batch_absent texts vectors (s : VectorStore) :
  Forall (fun v => Z.of_nat (length v) = faiss.d (index s)) vectors ->
  length vectors = length texts ->
  add_batch prec emax texts {| ncols := faiss.d (index s); rows := vectors |} None s
  = for_each (zip texts vectors) tt
      (fun _ tv => add prec emax tv.1 tv.2 None ;;; ret tt) s.
Proof.
  intros Hdim Hlen. rewrite add_loop, add_batch_eq by done.
  cbn [rows or_empty_dicts]. do 3 f_equal.
  clear. induction texts as [|t texts IH]; [done|]. cbn. by rewrite <- IH.
Qed.

Lemma zero_norm (v : Vector) :
  Forall (fun c => exists sign, c = S754_zero sign) v ->
  np.linalg_norm prec emax v = S754_zero false.
Proof.
  intros Hv. unfold np.linalg_norm.
  assert (np.sum_products prec emax v v = S754_zero false) as ->; [|done].
  unfold np.sum_products. change np.zero with (S754_zero false).
  induction Hv as [|c v [sign ->] Hv IH]; [done|].
  cbn [zip zip_with foldl fst snd SFmul SFadd].
  by destruct (xorb sign sign).
Qed.

Lemma zero_prepared (v : Vector) :
  Forall (fun c => exists sign, c = S754_zero sign) v ->
  prepared prec emax v = replicate (length v) S754_nan.
Proof.
  intros Hv. unfold prepared, normalize, np.divide, np.astype_float32.
  rewrite zero_norm by done.
  induction Hv as [|c v [sign ->] Hv IH]; [done|].
  cbn. by rewrite IH.
Qed.

Lemma search_ext q k (s1 s2 : VectorStore) :
  index s1 = index s2 -> documents s1 = documents s2 ->
  (search prec emax q k s1).1 = (search prec emax q k s2).1.
Proof.
  intros Hix Hdocs. unfold search. rewrite !bind_get, Hix, Hdocs.
  destruct (faiss.ntotal (index s2) =? 0); [done|].
  rewrite !bind_lift. destruct (faiss.search _ _ _) as [si|e]; [|done].
  rewrite !bind_lift. destruct (getitem si.1 0) as [scores0|e]; [|done].
  rewrite !bind_lift. destruct (getitem si.2 0) as [indices0|e]; [|done].
  apply for_each_indep.
  - intros acc [score idx] t t'. destruct (0 <=? idx); [|done].
    rewrite !bind_lift. by destruct (getitem _ _).
  - intros acc [score idx] t. destruct (0 <=? idx); [|done].
    rewrite !bind_lift. by destruct (getitem _ _).
Qed.

Lemma search_frame2 q k (s : VectorStore) : (search prec emax q k s).2 = s.
Proof.
  unfold search, bind at 1, get.
  destruct (faiss.ntotal (index s) =? 0); [done|].
  unfold bind at 1, lift at 1.
  destruct (faiss.search _ _ _) as [si|e]; [|done].
  unfold bind at 1, lift at 1. destruct (getitem si.1 0) as [scores0|e]; [|done].
  unfold bind at 1, lift at 1. destruct (getitem si.2 0) as [indices0|e]; [|done].
  apply for_each_frame. intros acc [score idx] s0.
  destruct (0 <=? idx); [|done].
  unfold bind, lift, ret. by destruct (getitem _ _).
Qed.
End Exercise2Facts.

(** ** Persistence *)

Lemma path_join_inj_name path name1 name2 :
  Exercise2.path_join path name1 = Exercise2.path_join path name2 -> name1 = name2.
Proof.
  unfold Exercise2.path_join. induction path as [|c path IH];
    unfold String.append; fold String.append.
  - by intros [= ->].
  - intros [= H]. by apply IH.
Qed.

Lemma artifact_names_differ path :
  Exercise2.path_join path "index.faiss" <> Exercise2.path_join path "documents.json".
Proof. intros H. by apply path_join_inj_name in H. Qed.

Section PersistenceFacts.
Import Exercise2.
Context {bytes : Type}.
Variable write_index : faiss.IndexFlatIP -> bytes.
Variable read_index : bytes -> option faiss.IndexFlatIP.
Variable json_dump : list Doc -> bytes.
Variable json_load : bytes -> option (list Doc).

Lemma save_eq path (w : World) :
  save write_index json_dump path w =
    (Ok tt,
     {| self := self w;
        disk := <[path_join path "documents.json" := json_dump (documents (self w))]>
                  (<[path_join path "index.faiss" := write_index (index (self w))]>
                     (disk w)) |}).
Proof. reflexivity. Qed.

Lemma load_no_index path (w : World) :
  disk w !! path_join path "index.faiss" = None ->
  load read_index json_load path w = (Raise RuntimeError, w).
Proof.
  intros H. unfold load, bind at 1, faiss_read_index, bind at 1, get.
  by rewrite H.
Qed.

Lemma load_no_sidecar path (w : World) content ix :
  disk w !! path_join path "index.faiss" = Some content ->
  read_index content = Some ix ->
  disk w !! path_join path "documents.json" = None ->
  load read_index json_load path w =
    (Raise FileNotFoundError, {| self := set_index ix (self w); disk := disk w |}).
Proof.
  intros Hix Hread Hdocs.
  unfold load, bind at 1, faiss_read_index, bind at 1, get.
  rewrite Hix, Hread. cbn -[path_join lookup].
  unfold bind at 1, open_json_load, bind at 1, get. cbn [disk].
  by rewrite Hdocs.
Qed.

Lemma load_both path (w : World) content1 ix content2 ds :
  disk w !! path_join path "index.faiss" = Some content1 ->
  read_index content1 = Some ix ->
  disk w !! path_join path "documents.json" = Some content2 ->
  json_load content2 = Some ds ->
  load read_index json_load path w =
    (Ok tt, {| self := set_documents ds (set_index ix (self w)); disk := disk w |}).
Proof.
  intros Hix Hread Hdocs Hload.
  unfold load, bind at 1, faiss_read_index, bind at 1, get.
  rewrite Hix, Hread. cbn -[path_join lookup].
  unfold bind at 1, open_json_load, bind at 1, get. cbn [disk].
  by rewrite Hdocs, Hload.
Qed.
End PersistenceFacts.

(** ** The scenario of the specification

    Three records ["A"], ["B"], ["C"] with embeddings [[1, 0]], [[0, 1]],
    [[1, 1]]; the query [[1, 0]] with [top_k = 2] ranks ["A"] (score [1.0])
    before ["C"] (score [0.7071067811865475], in float32 [0.70710677]), on
    both indexes. *)

Example exact_scenario :
  (Exercise1.search 53 1024 [Examples.f64 1; Examples.f64 0] 2 Examples.exact3).1
  = Ok [({| Exercise1.id := 0; Exercise1.text := "A";
            Exercise1.embedding := [Examples.f64 1; Examples.f64 0];
            Exercise1.metadata := ∅ |},
         S754_finite false 4503599627370496 (-52));
        ({| Exercise1.id := 2; Exercise1.text := "C";
            Exercise1.embedding := [Examples.f64 1; Examples.f64 1];
            Exercise1.metadata := ∅ |},
         S754_finite false 6369051672525772 (-53))].
Proof. by vm_compute. Qed.

Example normalized_scenario :
  (Exercise2.search 24 128 [Examples.f32 1; Examples.f32 0] 2 Examples.normalized3).1
  = Ok [({| Exercise2.text := "A"; Exercise2.metadata := ∅ |},
         S754_finite false 8388608 (-23));
        ({| Exercise2.text := "C"; Exercise2.metadata := ∅ |},
         S754_finite false 11863283 (-24))].
Proof. by vm_compute. Qed.

(** * The properties *)

(** C1, as the code has it.  [search] on an empty index returns the empty
    list, whatever the query and [top_k].  On the exact index, for stored
    embeddings of the query's length, [search] returns stored records with
    their scores, no more of them than there are records and, for
    [top_k >= 0], at most [min(top_k, number of records)]; the scores are in
    descending order when none of them is NaN.  On the normalized index,
    for [top_k > 0], a query of the index's dimension and a store whose
    records are aligned with its vectors, [search] returns stored records
    in descending order of score, at most [min(top_k, count())] of them. *)
Theorem search_ranked_and_bounded (prec emax : Z) :
  (forall q k (s : Exercise1.VectorStore),
     Exercise1.documents s = [] ->
     Exercise1.search prec emax q k s = (Ok [], s)) /\
  (forall q k (s : Exercise1.VectorStore),
     Exercise1Spec.same_dimension q s ->
     exists r,
       Exercise1.search prec emax q k s = (Ok r, s) /\
       (Exercise1Spec.scores_ordered prec emax q s -> descending r.*2) /\
       (length r <= length (Exercise1.documents s))%nat /\
       (0 <= k ->
        Z.of_nat (length r) <= Z.min k (Z.of_nat (length (Exercise1.documents s)))) /\
       Forall (fun p => p ∈ Exercise1Spec.scored prec emax q (Exercise1.documents s)) r) /\
  (forall q k (s : Exercise2.VectorStore),
     faiss.ntotal (Exercise2.index s) = 0 ->
     Exercise2.search prec emax q k s = (Ok [], s)) /\
  (forall q k (s : Exercise2.VectorStore),
     0 < k ->
     Exercise2Spec.aligned s ->
     Z.of_nat (length q) = faiss.d (Exercise2.index s) ->
     exists r,
       Exercise2.search prec emax q k s = (Ok r, s) /\
       descending r.*2 /\
       Z.of_nat (length r) <= Z.min k (Z.of_nat (length (Exercise2.documents s))) /\
       Forall (fun p => p.1 ∈ Exercise2.documents s) r).
Proof.
  split; [|split; [|split]].
  - intros q k s Hempty. unfold Exercise1.search, bind, get. by rewrite Hempty.
  - intros q k s Hdim. eexists. split; [by apply search_eq|].
    destruct (slice_to_take k (Exercise1Spec.ranking prec emax q (Exercise1.documents s)))
      as (n & Hslice & Hn).
    assert (length (Exercise1Spec.ranking prec emax q (Exercise1.documents s))
            = length (Exercise1.documents s)) as Hlen.
    { rewrite ranking_perm. unfold Exercise1Spec.scored. by rewrite length_map. }
    rewrite Hslice. split; [|split; [|split]].
    + intros Hord. rewrite fmap_take.
      by apply StronglySorted_take, ranking_descending.
    + rewrite length_take. lia.
    + intros Hk. specialize (Hn Hk). rewrite length_take. lia.
    + apply Forall_forall. intros p Hp.
      apply elem_of_take in Hp as (j & Hp & _). apply list_elem_of_lookup_2 in Hp.
      by rewrite ranking_perm in Hp.
  - intros q k s. apply search_empty.
  - intros q k s Hk Hal Hdim.
    destruct (search_ok prec emax q k s Hal Hdim Hk) as (r & Heq & Hr & Hdocs).
    exists r. split; [done|]. split; [|split; [|done]].
    + rewrite Hr. apply hits_descending.
    + assert (length r = length (Exercise2Spec.hits (Exercise2.index s)
                (Z.min k (faiss.ntotal (Exercise2.index s)))
                (Exercise2Spec.prepared prec emax q))) as ->.
      { by rewrite <- (length_fmap snd r), Hr, length_fmap. }
      destruct (hits_length (Exercise2.index s)
                  (Z.min k (faiss.ntotal (Exercise2.index s)))
                  (Exercise2Spec.prepared prec emax q)) as [H1 H2].
      unfold Exercise2Spec.aligned, faiss.ntotal in *. lia.
Qed.


(** C9.  For vectors [a] and [b] of equal length the similarity is symmetric:
    [_cosine_similarity(a, b)] and [_cosine_similarity(b, a)] return the same
    float. *)
Theorem cosine_similarity_symmetric (prec emax : Z) (a b : Vector) :
  length a = length b ->
  exists c,
    Exercise1._cosine_similarity prec emax a b = Ok c /\
    Exercise1._cosine_similarity prec emax b a = Ok c.
Proof.
  intros Hlen. rewrite !cosine_similarity_eq, !decide_True by done.
  eexists. split; [done|]. f_equal. unfold Exercise1Spec.cosine_value.
  rewrite (sum_products_comm _ _ b a), (SFmul_comm _ _ (np.linalg_norm _ _ b)).
  by rewrite (orb_comm (np.eq_zero (np.linalg_norm _ _ b))).
Qed.

(** C10.  [search] leaves the store as it found it, whether it returns or
    raises: the record list and the identity counter of the exact index, and
    the dimension, the faiss index and the record list of the normalized
    index. *)
Theorem search_leaves_state_unchanged (prec emax : Z) :
  (forall q k (s : Exercise1.VectorStore),
     (Exercise1.search prec emax q k s).2 = s) /\
  (forall q k (s : Exercise2.VectorStore),
     (Exercise2.search prec emax q k s).2 = s).
Proof. split; intros q k s; [apply search_frame | apply search_frame2]. Qed.

(** C5.  For file formats that read back what they wrote, [save(path)]
    followed by [load(path)] into a fresh store gives a store with the same
    faiss index and the same record list, hence the same [count()], the
    same texts and metadata in insertion order and the same [search]
    results; the two files decode to the
    saved index and the saved record list, so record [i] of the sidecar
    stays with vector [i] of the index. *)
Theorem save_load_round_trip {bytes : Type}
    (write_index : faiss.IndexFlatIP -> bytes)
    (read_index : bytes -> option faiss.IndexFlatIP)
    (json_dump : list Exercise2.Doc -> bytes)
    (json_load : bytes -> option (list Exercise2.Doc))
    (path : string) (s : Exercise2.VectorStore) (files : gmap string bytes)
    (dimension : Z) :
  (forall ix, read_index (write_index ix) = Some ix) ->
  (forall ds, json_load (json_dump ds) = Some ds) ->
  exists files' s',
    Exercise2.save write_index json_dump path
      {| Exercise2.self := s; Exercise2.disk := files |}
      = (Ok tt, {| Exercise2.self := s; Exercise2.disk := files' |}) /\
    (files' !! Exercise2.path_join path "index.faiss") ≫= read_index
      = Some (Exercise2.index s) /\
    (files' !! Exercise2.path_join path "documents.json") ≫= json_load
      = Some (Exercise2.documents s) /\
    Exercise2.load read_index json_load path
      {| Exercise2.self := Exercise2.init dimension; Exercise2.disk := files' |}
      = (Ok tt, {| Exercise2.self := s'; Exercise2.disk := files' |}) /\
    Exercise2.index s' = Exercise2.index s /\
    Exercise2.documents s' = Exercise2.documents s /\
    (Exercise2.count s').1 = (Exercise2.count s).1 /\
    (Exercise2Spec.aligned s -> Exercise2Spec.aligned s') /\
    (forall prec emax q k,
       (Exercise2.search prec emax q k s').1 = (Exercise2.search prec emax q k s).1).
Proof.
  intros Hindex Hjson.
  pose proof (artifact_names_differ path) as Hne.
  eexists _, (Exercise2.set_documents (Exercise2.documents s)
               (Exercise2.set_index (Exercise2.index s) (Exercise2.init dimension))).
  split; [apply save_eq|]. cbn [Exercise2.self Exercise2.disk].
  assert ((<[Exercise2.path_join path "documents.json" := json_dump (Exercise2.documents s)]>
            (<[Exercise2.path_join path "index.faiss" := write_index (Exercise2.index s)]>
               files)) !! Exercise2.path_join path "index.faiss"
          = Some (write_index (Exercise2.index s))) as Hix.
  { rewrite lookup_insert_ne by done. apply lookup_insert_eq. }
  split; [by rewrite Hix; cbn; rewrite Hindex|].
  split; [by rewrite lookup_insert_eq; cbn; rewrite Hjson|].
  split.
  { erewrite load_both; [done|exact Hix|apply Hindex|apply lookup_insert_eq|apply Hjson]. }
  repeat split; try done. intros prec emax q k. by apply search_ext.
Qed.

Lemma save_load_round_trip_witness :
  exists files' s',
    Exercise2.save Examples.write_index Examples.json_dump "store"
      {| Exercise2.self := Examples.normalized3; Exercise2.disk := ∅ |}
      = (Ok tt, {| Exercise2.self := Examples.normalized3; Exercise2.disk := files' |}) /\
    (files' !! Exercise2.path_join "store" "index.faiss") ≫= Examples.read_index
      = Some (Exercise2.index Examples.normalized3) /\
    (files' !! Exercise2.path_join "store" "documents.json") ≫= Examples.json_load
      = Some (Exercise2.documents Examples.normalized3) /\
    Exercise2.load Examples.read_index Examples.json_load "store"
      {| Exercise2.self := Exercise2.init 384; Exercise2.disk := files' |}
      = (Ok tt, {| Exercise2.self := s'; Exercise2.disk := files' |}) /\
    Exercise2.index s' = Exercise2.index Examples.normalized3 /\
    Exercise2.documents s' = Exercise2.documents Examples.normalized3 /\
    (Exercise2.count s').1 = (Exercise2.count Examples.normalized3).1 /\
    (Exercise2Spec.aligned Examples.normalized3 -> Exercise2Spec.aligned s') /\
    (forall prec emax q k,
       (Exercise2.search prec emax q k s').1
       = (Exercise2.search prec emax q k Examples.normalized3).1).
Proof.
  apply (save_load_round_trip Examples.write_index Examples.read_index
           Examples.json_dump Examples.json_load "store" Examples.normalized3 ∅ 384).
  - intros ix. reflexivity.
  - intros ds. reflexivity.
Defined.

(** C6, as the code has it.  [load] fails when either file is missing.
    When the index file is missing the store is left as it was.  When only
    the sidecar is missing, the record list, the dimension and the files are
    left as they were. *)
Theorem load_missing_artifact {bytes : Type}
    (read_index : bytes -> option faiss.IndexFlatIP)
    (json_load : bytes -> option (list Exercise2.Doc))
    (path : string) (w : Exercise2.World) :
  (Exercise2.disk w !! Exercise2.path_join path "index.faiss" = None ->
   Exercise2.load read_index json_load path w = (Raise RuntimeError, w)) /\
  (forall content ix,
     Exercise2.disk w !! Exercise2.path_join path "index.faiss" = Some content ->
     read_index content = Some ix ->
     Exercise2.disk w !! Exercise2.path_join path "documents.json" = None ->
     exists w',
       Exercise2.load read_index json_load path w = (Raise FileNotFoundError, w') /\
       Exercise2.documents (Exercise2.self w') = Exercise2.documents (Exercise2.self w) /\
       Exercise2.dimension (Exercise2.self w') = Exercise2.dimension (Exercise2.self w) /\
       Exercise2.disk w' = Exercise2.disk w).
Proof.
  split.
  - apply load_no_index.
  - intros content ix Hix Hread Hdocs. eexists. split; [by eapply load_no_sidecar|done].
Qed.

Lemma load_missing_artifact_witness :
  let w := {| Exercise2.self := Exercise2.init 2;
              Exercise2.disk := Examples.disk_without_sidecar |} in
  exists w',
    Exercise2.load Examples.read_index Examples.json_load "store" w
      = (Raise FileNotFoundError, w') /\
    Exercise2.documents (Exercise2.self w') = [] /\
    Exercise2.dimension (Exercise2.self w') = 2 /\
    Exercise2.disk w' = Examples.disk_without_sidecar.
Proof.
  intros w.
  apply (proj2 (load_missing_artifact Examples.read_index Examples.json_load "store" w)
           (Examples.write_index (Exercise2.index Examples.normalized3))
           (Exercise2.index Examples.normalized3)).
  - reflexivity.
  - reflexivity.
  - reflexivity.
Defined.

(** C6 as stated does not hold: with the index file present and the sidecar
    missing, [load] raises and the store it leaves is not the store it
    found. *)
Lemma load_missing_sidecar_changes_store :
  let w := {| Exercise2.self := Exercise2.init 2;
              Exercise2.disk := Examples.disk_without_sidecar |} in
  Exercise2.disk w !! Exercise2.path_join "store" "documents.json" = None /\
  exists e w',
    Exercise2.load Examples.read_index Examples.json_load "store" w = (Raise e, w') /\
    Exercise2.self w' <> Exercise2.self w.
Proof.
  intros w. split; [reflexivity|].
  exists FileNotFoundError. eexists. split; [reflexivity|].
  intros H. apply (f_equal (fun s => length (faiss.xb (Exercise2.index s)))) in H.
  vm_compute in H. discriminate.
Qed.

Lemma search_ranked_and_bounded_witness :
  let q1 := [Examples.f64 1; Examples.f64 0] in
  let q2 := [Examples.f32 1; Examples.f32 0] in
  (Exercise1Spec.same_dimension q1 Examples.exact3 /\
   Exercise1Spec.scores_ordered 53 1024 q1 Examples.exact3 /\
   exists r,
     Exercise1.search 53 1024 q1 2 Examples.exact3 = (Ok r, Examples.exact3) /\
     descending r.*2 /\
     (length r <= length (Exercise1.documents Examples.exact3))%nat /\
     (0 <= 2 ->
      Z.of_nat (length r)
        <= Z.min 2 (Z.of_nat (length (Exercise1.documents Examples.exact3)))) /\
     Forall (fun p => p ∈ Exercise1Spec.scored 53 1024 q1
                            (Exercise1.documents Examples.exact3)) r) /\
  (0 < 2 /\
   Exercise2Spec.aligned Examples.normalized3 /\
   Z.of_nat (length q2) = faiss.d (Exercise2.index Examples.normalized3) /\
   exists r,
     Exercise2.search 24 128 q2 2 Examples.normalized3 = (Ok r, Examples.normalized3) /\
     descending r.*2 /\
     Z.of_nat (length r)
       <= Z.min 2 (Z.of_nat (length (Exercise2.documents Examples.normalized3))) /\
     Forall (fun p => p.1 ∈ Exercise2.documents Examples.normalized3) r).
Proof.
  intros q1 q2.
  assert (Exercise1Spec.same_dimension q1 Examples.exact3) as Hdim
    by (repeat constructor).
  assert (Exercise1Spec.scores_ordered 53 1024 q1 Examples.exact3) as Hord
    by (repeat constructor; intros H; vm_compute in H; discriminate).
  assert (Exercise2Spec.aligned Examples.normalized3) as Hal by reflexivity.
  assert (Z.of_nat (length q2) = faiss.d (Exercise2.index Examples.normalized3))
    as Hq by reflexivity.
  split.
  - split; [exact Hdim|]. split; [exact Hord|].
    destruct (proj1 (proj2 (search_ranked_and_bounded 53 1024)) q1 2 Examples.exact3 Hdim)
      as (r & Heq & Hsorted & Hcount & Htop & Hstored).
    exists r. split; [exact Heq|]. split; [exact (Hsorted Hord)|].
    split; [exact Hcount|]. split; [exact Htop|exact Hstored].
  - split; [lia|]. split; [exact Hal|]. split; [exact Hq|].
    apply (proj2 (proj2 (proj2 (search_ranked_and_bounded 24 128)))); [lia|exact Hal|exact Hq].
Defined.

(** C1 as stated does not hold for every index state and every query: a
    score that is NaN breaks the order.  On the exact index, with three
    records and a query that are all finite and of one dimension, the score
    of the second record is NaN.  [list.sort] compares with [<], which is
    false on NaN either way, and leaves the scores as [0.707, NaN, 1.0]:
    they are not in descending order, and [top_k = 2] returns the first two
    records and leaves out the record with the greatest score. *)
Lemma search_nan_score_unsorted :
  let q := OverflowExample.query in
  let s := OverflowExample.store in
  Forall (fun c => finite c = true) q /\
  Forall (fun doc => Forall (fun c => finite c = true) (Exercise1.embedding doc))
    (Exercise1.documents s) /\
  Exercise1Spec.same_dimension q s /\
  (exists r,
     Exercise1.search 53 1024 q 3 s = (Ok r, s) /\
     Exercise1.text <$> r.*1 = ["E1"; "E2"; "E3"]%string /\
     r.*2 !! 1%nat = Some S754_nan /\
     ~ descending r.*2) /\
  (exists r c1 c3,
     Exercise1.search 53 1024 q 2 s = (Ok r, s) /\
     Exercise1.text <$> r.*1 = ["E1"; "E2"]%string /\
     r.*2 !! 0%nat = Some c1 /\
     Exercise1Spec.cosine_value 53 1024 q [Examples.f64 1; Examples.f64 0] = c3 /\
     SFltb c1 c3 = true).
Proof.
  intros q s.
  split; [by repeat constructor|]. split; [by repeat constructor|].
  split; [by repeat constructor|]. split.
  - exists (Exercise1Spec.ranking 53 1024 q (Exercise1.documents s)).
    split; [by vm_compute|]. split; [by vm_compute|]. split; [by vm_compute|].
    intros Hsorted. vm_compute in Hsorted.
    apply StronglySorted_inv in Hsorted as [_ Hfirst].
    apply Forall_cons in Hfirst as [_ Hfirst].
    apply Forall_cons in Hfirst as [Hlt _].
    vm_compute in Hlt. discriminate.
  - exists (take 2 (Exercise1Spec.ranking 53 1024 q (Exercise1.documents s))).
    eexists. eexists.
    split; [by vm_compute|]. split; [by vm_compute|].
    split; [by vm_compute|]. split; [reflexivity|]. by vm_compute.
Qed.


Lemma cosine_similarity_symmetric_witness :
  let a := [Examples.f64 1; Examples.f64 0] in
  let b := [Examples.f64 1; Examples.f64 1] in
  length a = length b /\
  exists c,
    Exercise1._cosine_similarity 53 1024 a b = Ok c /\
    Exercise1._cosine_similarity 53 1024 b a = Ok c.
Proof.
  intros a b. split; [reflexivity|].
  apply (cosine_similarity_symmetric 53 1024 a b). reflexivity.
Defined.

(** C3, at the input on which the code departs from it.  [add] and
    [add_batch] hand faiss every vector divided by its norm and cast to
    float32, as the claim says.  For a vector whose components are all zero
    the norm is zero and each quotient [0 / 0] is NaN: the vector stored is
    all NaN, not all zero. *)
Theorem add_zero_vector_stores_nan (prec emax : Z) :
  (forall text v metadata (s : Exercise2.VectorStore),
     Z.of_nat (length v) = faiss.d (Exercise2.index s) ->
     exists i s',
       Exercise2.add prec emax text v metadata s = (Ok i, s') /\
       faiss.xb (Exercise2.index s') =
         faiss.xb (Exercise2.index s) ++
         [np.astype_float32 (Exercise2.normalize prec emax v)]) /\
  (forall texts embeddings metadatas (s : Exercise2.VectorStore),
     ncols embeddings = faiss.d (Exercise2.index s) ->
     exists s',
       Exercise2.add_batch prec emax texts embeddings metadatas s = (Ok tt, s') /\
       faiss.xb (Exercise2.index s') =
         faiss.xb (Exercise2.index s) ++
         map (fun v => np.astype_float32 (Exercise2.normalize prec emax v))
             (rows embeddings)) /\
  (forall v,
     Forall (fun c => exists sign, c = S754_zero sign) v ->
     np.eq_zero (np.linalg_norm prec emax v) = true /\
     np.astype_float32 (Exercise2.normalize prec emax v)
       = replicate (length v) S754_nan).
Proof.
  split; [|split].
  - intros text v metadata s Hdim. eexists _, _. by split; [apply add_eq|].
  - intros texts embeddings metadatas s Hdim. eexists. by split; [apply add_batch_eq|].
  - intros v Hv. split; [by rewrite zero_norm|]. by apply zero_prepared.
Qed.

Lemma add_zero_vector_stores_nan_witness :
  let v := [S754_zero false; S754_zero false] in
  Z.of_nat (length v) = faiss.d (Exercise2.index (Exercise2.init 2)) /\
  Forall (fun c => exists sign, c = S754_zero sign) v /\
  exists i s',
    Exercise2.add 24 128 "Z" v None (Exercise2.init 2) = (Ok i, s') /\
    faiss.xb (Exercise2.index s') = [[S754_nan; S754_nan]].
Proof.
  intros v.
  assert (Forall (fun c => exists sign, c = S754_zero sign) v) as Hv
    by (repeat constructor; by exists false).
  split; [reflexivity|]. split; [exact Hv|].
  destruct (add_zero_vector_stores_nan 24 128) as (Hadd & _ & Hzero).
  destruct (Hadd "Z"%string v None (Exercise2.init 2) eq_refl) as (i & s' & Heq & Hxb).
  exists i, s'. split; [exact Heq|].
  rewrite Hxb. destruct (Hzero v Hv) as [_ ->]. reflexivity.
Defined.

(** C4, at the input on which the code departs from it.  With a non-empty
    [metadatas], [add_batch] gives faiss every row but appends one record per
    pair of [zip(texts, metadatas)]: when [metadatas] is shorter than
    [texts], the texts beyond it get no record at all, and the record list
    is shorter than the index. *)
Theorem add_batch_short_metadatas (prec emax : Z) (texts : list string)
    (embeddings : ndarray2) (m : Metadata) (ms : list Metadata)
    (s : Exercise2.VectorStore) :
  ncols embeddings = faiss.d (Exercise2.index s) ->
  length (rows embeddings) = length texts ->
  (length (m :: ms) < length texts)%nat ->
  exists s',
    Exercise2.add_batch prec emax texts embeddings (Some (m :: ms)) s = (Ok tt, s') /\
    length (faiss.xb (Exercise2.index s')) =
      (length (faiss.xb (Exercise2.index s)) + length texts)%nat /\
    Exercise2.documents s' =
      Exercise2.documents s ++
      zip_with (fun t md => {| Exercise2.text := t; Exercise2.metadata := md |})
               texts (m :: ms) /\
    length (Exercise2.documents s') =
      (length (Exercise2.documents s) + length (m :: ms))%nat.
Proof.
  intros Hdim Hrows Hshort. eexists. split; [by apply add_batch_eq|].
  cbn [Exercise2.index Exercise2.documents faiss.xb Exercise2.or_empty_dicts].
  rewrite records_of_pairs.
  split; [by rewrite length_app, length_map, Hrows|]. split; [done|].
  rewrite length_app, length_zip_with. lia.
Qed.

Lemma add_batch_short_metadatas_witness :
  let texts := ["t1"; "t2"; "t3"; "t4"; "t5"]%string in
  let row := [Examples.f32 1; Examples.f32 0] in
  let embeddings := {| ncols := 2; rows := [row; row; row; row; row] |} in
  let m1 : Metadata := {[ "page"%string := SInt 1 ]} in
  let m2 : Metadata := {[ "page"%string := SInt 2 ]} in
  (length [m1; m2] < length texts)%nat /\
  exists s',
    Exercise2.add_batch 24 128 texts embeddings (Some [m1; m2]) (Exercise2.init 2)
      = (Ok tt, s') /\
    length (faiss.xb (Exercise2.index s')) = 5%nat /\
    Exercise2.documents s' =
      [{| Exercise2.text := "t1"; Exercise2.metadata := m1 |};
       {| Exercise2.text := "t2"; Exercise2.metadata := m2 |}] /\
    length (Exercise2.documents s') = 2%nat.
Proof.
  intros texts row embeddings m1 m2. split; [cbn; lia|].
  apply (add_batch_short_metadatas 24 128 texts embeddings m1 [m2] (Exercise2.init 2)).
  - reflexivity.
  - reflexivity.
  - cbn. lia.
Defined.

(** C7, as the code has it.  On the normalized index an embedding whose
    length is not the index's dimension makes [add] raise (the dimension
    assertion of faiss) and leaves the store as it was, and an [add] that
    succeeds keeps every stored vector at the index's dimension.  The exact
    index has no dimension: its [add] accepts an embedding of any length,
    stores it and returns its identity. *)
Theorem add_dimension_check (prec emax : Z) :
  (forall text embedding metadata (s : Exercise2.VectorStore),
     Z.of_nat (length embedding) <> faiss.d (Exercise2.index s) ->
     Exercise2.add prec emax text embedding metadata s = (Raise AssertionError, s)) /\
  (forall text embedding metadata (s : Exercise2.VectorStore),
     Exercise2Spec.uniform (Exercise2.index s) ->
     Exercise2Spec.uniform
       (Exercise2.index (exec (Exercise2.add prec emax text embedding metadata) s))) /\
  (forall text embedding metadata (s : Exercise1.VectorStore),
     Exercise1.add text embedding metadata s =
       (Ok (Exercise1.next_id s),
        {| Exercise1.documents :=
             Exercise1.documents s ++
             [{| Exercise1.id := Exercise1.next_id s; Exercise1.text := text;
                 Exercise1.embedding := embedding;
                 Exercise1.metadata := or_empty metadata |}];
           Exercise1.next_id := Exercise1.next_id s + 1 |})).
Proof.
  split; [|split].
  - intros text embedding metadata s. apply add_mismatch.
  - intros text embedding metadata s Huni. unfold exec.
    destruct (decide (Z.of_nat (length embedding) = faiss.d (Exercise2.index s)))
      as [Hdim|Hdim].
    + rewrite add_eq by done. unfold Exercise2Spec.uniform in *. cbn.
      apply Forall_app. split; [done|]. repeat constructor.
      by rewrite prepared_length.
    + by rewrite add_mismatch.
  - reflexivity.
Qed.

Lemma add_dimension_check_witness :
  let e := [Examples.f32 1; Examples.f32 0; Examples.f32 0] in
  (Z.of_nat (length e) <> faiss.d (Exercise2.index Examples.normalized3) /\
   Exercise2.add 24 128 "D" e None Examples.normalized3
     = (Raise AssertionError, Examples.normalized3)) /\
  (Exercise2Spec.uniform (Exercise2.index Examples.normalized3) /\
   Exercise2Spec.uniform
     (Exercise2.index
        (exec (Exercise2.add 24 128 "D" [Examples.f32 0; Examples.f32 2] None)
              Examples.normalized3))).
Proof.
  intros e.
  assert (Z.of_nat (length e) <> faiss.d (Exercise2.index Examples.normalized3))
    as Hne by (intros H; vm_compute in H; discriminate).
  assert (Exercise2Spec.uniform (Exercise2.index Examples.normalized3)) as Huni
    by (repeat constructor).
  split; (split; [done|]).
  - by apply (proj1 (add_dimension_check 24 128)).
  - by apply (proj1 (proj2 (add_dimension_check 24 128))).
Defined.

(** C7 as stated does not hold on the exact index: after two records of
    length 2, [add] with an embedding of length 3 returns an identity and
    the record is stored beside them. *)
Lemma exact_add_accepts_other_length :
  let e := [Examples.f64 1; Examples.f64 0; Examples.f64 0] in
  exists s',
    Exercise1.add "D" e None Examples.exact3 = (Ok 3, s') /\
    Exercise1.embedding <$> Exercise1.documents s' !! 0%nat
      = Some [Examples.f64 1; Examples.f64 0] /\
    Exercise1.embedding <$> Exercise1.documents s' !! 3%nat = Some e /\
    length (Exercise1.documents s') = 4%nat.
Proof.
  intros e. exists (exec (Exercise1.add "D" e None) Examples.exact3).
  split; by vm_compute.
Qed.

(** What [search] does with the remaining non-positive [top_k]: the exact
    index cuts the ranking from the end, and a normalized index that is not
    empty hands the value to faiss, whose [search] rejects it. *)
Lemma exact_search_negative_top_k (prec emax : Z) q k (s : Exercise1.VectorStore) :
  k < 0 ->
  Exercise1Spec.same_dimension q s ->
  Exercise1.search prec emax q k s =
    (Ok (take (length (Exercise1.documents s) - Z.to_nat (- k))
              (Exercise1Spec.ranking prec emax q (Exercise1.documents s))), s).
Proof.
  intros Hk Hdim. rewrite search_eq by done. unfold slice_to.
  rewrite (proj2 (Z.leb_gt 0 k)) by done. do 3 f_equal.
  rewrite ranking_perm. unfold Exercise1Spec.scored. rewrite length_map. lia.
Qed.

Lemma normalized_search_rejects_top_k (prec emax : Z) q k (s : Exercise2.VectorStore) :
  k <= 0 ->
  faiss.ntotal (Exercise2.index s) <> 0 ->
  Exercise2.search prec emax q k s = (Raise AssertionError, s).
Proof.
  intros Hk Hnz. unfold Exercise2.search, bind at 1, get.
  rewrite (proj2 (Z.eqb_neq _ 0)) by done.
  unfold bind at 1, lift at 1, faiss.search.
  destruct (decide (ncols _ = _)); [|done].
  rewrite decide_False; [done|]. unfold faiss.ntotal. lia.
Qed.

(** C8, as the code has it.  On an empty index [search] returns the empty
    list for every [top_k], zero and negative ones included.  On the exact
    index, with stored embeddings of the query's length, it returns the
    empty list when [top_k] is zero, and when [top_k] is negative and the
    index holds no more than [-top_k] records. *)
Theorem search_nonpositive_top_k (prec emax : Z) :
  (forall q k (s : Exercise1.VectorStore),
     Exercise1.documents s = [] ->
     Exercise1.search prec emax q k s = (Ok [], s)) /\
  (forall q k (s : Exercise2.VectorStore),
     faiss.ntotal (Exercise2.index s) = 0 ->
     Exercise2.search prec emax q k s = (Ok [], s)) /\
  (forall q k (s : Exercise1.VectorStore),
     Exercise1Spec.same_dimension q s ->
     k = 0 \/ (k < 0 /\ Z.of_nat (length (Exercise1.documents s)) <= - k) ->
     Exercise1.search prec emax q k s = (Ok [], s)).
Proof.
  split; [|split].
  - intros q k s Hempty. unfold Exercise1.search, bind, get. by rewrite Hempty.
  - intros q k s. apply search_empty.
  - intros q k s Hdim [->|[Hk Hlen]]; [by rewrite search_eq|].
    rewrite exact_search_negative_top_k by done.
    by replace (length (Exercise1.documents s) - Z.to_nat (- k))%nat with 0%nat by lia.
Qed.

Lemma search_nonpositive_top_k_witness :
  let q := [Examples.f64 1; Examples.f64 0] in
  Exercise1Spec.same_dimension q Examples.exact3 /\
  (-3 < 0 /\ Z.of_nat (length (Exercise1.documents Examples.exact3)) <= - -3) /\
  Exercise1.search 53 1024 q 0 Examples.exact3 = (Ok [], Examples.exact3) /\
  Exercise1.search 53 1024 q (-3) Examples.exact3 = (Ok [], Examples.exact3).
Proof.
  intros q.
  assert (Exercise1Spec.same_dimension q Examples.exact3) as Hdim
    by (repeat constructor).
  assert (-3 < 0 /\ Z.of_nat (length (Exercise1.documents Examples.exact3)) <= - -3)
    as Hneg by (cbn; lia).
  split; [exact Hdim|]. split; [exact Hneg|].
  split; apply (proj2 (proj2 (search_nonpositive_top_k 53 1024))); auto.
Defined.

(** C8 as stated does not hold: on the exact index with three records,
    [top_k = -1] returns two results; on the normalized index with three
    records, [top_k = 0] raises. *)
Lemma search_negative_top_k_returns_results :
  let q1 := [Examples.f64 1; Examples.f64 0] in
  let q2 := [Examples.f32 1; Examples.f32 0] in
  (exists r,
     Exercise1.search 53 1024 q1 (-1) Examples.exact3 = (Ok r, Examples.exact3) /\
     Exercise1.text <$> r.*1 = ["A"; "C"]%string) /\
  Exercise2.search 24 128 q2 0 Examples.normalized3
    = (Raise AssertionError, Examples.normalized3).
Proof.
  intros q1 q2. split; [|by vm_compute].
  exists (take 2 (Exercise1Spec.ranking 53 1024 q1 (Exercise1.documents Examples.exact3))).
  split; by vm_compute.
Qed.

(** * Further lemmas *)

(** ** Stable sorting *)

Section SortStability.
Context {A K : Type} (lt : K -> K -> bool) (key : A -> K).

Lemma sort_stable_id (l : list A) :
  (forall i j x y, (i < j)%nat -> l !! i = Some x -> l !! j = Some y ->
     lt (key y) (key x) = false) ->
  sort_stable lt key l = l.
Proof.
  induction l as [|x l IH]; intros Hl; [done|].
  cbn [sort_stable]. rewrite IH.
  - destruct l as [|y l]; [done|]. cbn [insert_sorted].
    by rewrite (Hl 0%nat 1%nat x y) by (done || lia).
  - intros i j a b Hij Ha Hb. apply (Hl (S i) (S j)); [lia|done..].
Qed.

Lemma insert_sorted_filter (P : A -> Prop) `{!forall x, Decision (P x)} x l :
  (forall y, y ∈ l -> P x -> P y -> lt (key y) (key x) = false) ->
  filter P (insert_sorted lt key x l) = filter P (x :: l).
Proof.
  induction l as [|y l IH]; intros Hl; [done|]. cbn [insert_sorted].
  destruct (lt (key y) (key x)) eqn:Hlt; [|done].
  assert (filter P (insert_sorted lt key x l) = filter P (x :: l)) as IH'.
  { apply IH. intros z Hz. apply Hl. by right. }
  destruct (decide (P x)) as [Hx|Hx].
  - assert (~ P y) as Hy.
    { intros Hy. rewrite (Hl y) in Hlt by (done || by left). done. }
    rewrite (filter_cons_False _ y) by done.
    rewrite IH'. rewrite !filter_cons_True by done.
    by rewrite (filter_cons_False _ y) by done.
  - rewrite (filter_cons P y), IH', (filter_cons_False _ x) by done.
    by rewrite (filter_cons_False _ x), (filter_cons P y) by done.
Qed.

Lemma sort_stable_filter (P : A -> Prop) `{!forall x, Decision (P x)} l :
  (forall x y, x ∈ l -> y ∈ l -> P x -> P y -> lt (key y) (key x) = false) ->
  filter P (sort_stable lt key l) = filter P l.
Proof.
  induction l as [|x l IH]; intros Hl; [done|]. cbn [sort_stable].
  rewrite insert_sorted_filter.
  - rewrite !(filter_cons P x), IH; [done|].
    intros a b Ha Hb. apply Hl; by right.
  - intros y Hy. rewrite sort_stable_perm in Hy. apply Hl; [by left|by right].
Qed.

Lemma sort_reverse_filter (P : A -> Prop) `{!forall x, Decision (P x)} l :
  (forall x y, x ∈ l -> y ∈ l -> P x -> P y -> lt (key y) (key x) = false) ->
  filter P (sort_reverse lt key l) = filter P l.
Proof.
  intros Hl. unfold sort_reverse.
  rewrite filter_reverse, sort_stable_filter, filter_reverse, reverse_involutive; [done|].
  intros x y Hx Hy. rewrite elem_of_reverse in Hx, Hy. by apply Hl.
Qed.
End SortStability.

(** ** The exact index: numbering and ties *)

Section Exercise1Ranking.
Import Exercise1 Exercise1Spec Exercise1Inv.
Variables prec emax : Z.

Lemma add_eq1 text e md (s : VectorStore) :
  add text e md s =
    (Ok (next_id s),
     {| documents := documents s ++
          [{| id := next_id s; text := text; embedding := e; metadata := or_empty md |}];
        next_id := next_id s + 1 |}).
Proof. reflexivity. Qed.

Lemma well_numbered_add text e md (s : VectorStore) :
  well_numbered s -> well_numbered (exec (add text e md) s).
Proof.
  intros [Hn Hid]. unfold exec. rewrite add_eq1. cbn [snd]. split; cbn [documents next_id].
  - rewrite length_app. cbn. lia.
  - intros i doc Hi. apply lookup_app_Some in Hi as [Hi|[Hge Hi]]; [by apply Hid|].
    apply list_lookup_singleton_Some in Hi as [Hi <-]. cbn. lia.
Qed.

Lemma well_numbered_NoDup (s : VectorStore) :
  well_numbered s -> NoDup (id <$> documents s).
Proof.
  intros [_ Hid]. apply NoDup_alt. intros i j x Hi Hj.
  rewrite list_lookup_fmap in Hi, Hj.
  destruct (documents s !! i) as [a|] eqn:Ha; [|done].
  destruct (documents s !! j) as [b|] eqn:Hb; [|done].
  apply Hid in Ha, Hb. cbn in Hi, Hj. simplify_eq. lia.
Qed.

Lemma ranking_split q (s : VectorStore) n :
  scores_ordered prec emax q s ->
  forall x y,
    x ∈ take n (ranking prec emax q (documents s)) ->
    y ∈ drop n (ranking prec emax q (documents s)) ->
    SFltb x.2 y.2 = false.
Proof.
  intros Hord x y Hx Hy.
  pose proof (sort_reverse_sorted SFltb snd (fun x => x <> S754_nan)
    SFltb_asym SFltb_negtrans (scored prec emax q (documents s))) as Hs.
  fold (ranking prec emax q (documents s)) in Hs.
  rewrite <- (take_drop n (ranking prec emax q (documents s))) in Hs.
  eapply (StronglySorted_app_1_elem_of _ _ _ x y) in Hs; [done| |done..].
  unfold scored. rewrite Forall_fmap. exact Hord.
Qed.

Lemma ranking_ties q (s : VectorStore) c :
  scores_ordered prec emax q s -> c <> S754_nan ->
  filter (fun p => same_score c p.2) (ranking prec emax q (documents s))
  = filter (fun p => same_score c p.2) (scored prec emax q (documents s)).
Proof.
  intros Hord Hc. apply (sort_reverse_filter SFltb snd).
  intros x y Hx Hy [Hx1 Hx2] [Hy1 Hy2].
  assert (forall p, p ∈ scored prec emax q (documents s) -> p.2 <> S754_nan) as Hnan.
  { intros p Hp. unfold scored in Hp. apply list_elem_of_fmap in Hp as (doc & -> & Hdoc).
    unfold scores_ordered in Hord. rewrite Forall_forall in Hord. by apply Hord. }
  apply (SFltb_negtrans _ c); auto.
Qed.
End Exercise1Ranking.

Lemma search_mismatch_loop prec emax q docs : forall acc (s : Exercise1.VectorStore),
  Exists (fun doc => length (Exercise1.embedding doc) <> length q) docs ->
  for_each docs acc
    (fun similarities doc =>
       sim <- lift (Exercise1._cosine_similarity prec emax q (Exercise1.embedding doc)) ;;
       ret (similarities ++ [(doc, sim)])) s
  = (Raise ValueError, s).
Proof.
  induction docs as [|doc docs IH]; intros acc s Hex.
  { by apply Exists_nil in Hex. }
  cbn [for_each]. unfold bind at 1. unfold bind at 1, lift, ret.
  rewrite cosine_similarity_eq.
  destruct (decide (length q = length (Exercise1.embedding doc))) as [Heq|Hne]; [|done].
  apply IH. apply Exists_cons in Hex as [Hex|Hex]; [by rewrite Heq in Hex|done].
Qed.

(** ** The normalized index: the result loop *)

Section Exercise2Loop.
Import Exercise2 Exercise2Spec Exercise2Inv.
Variables prec emax : Z.

(** [search] on an index that is not empty, for a query of its dimension
    and [top_k > 0], is the loop over the padded answer of faiss. *)
Lemma search_run q k (s : VectorStore) :
  faiss.ntotal (index s) <> 0 ->
  Z.of_nat (length q) = faiss.d (index s) -> 0 < k ->
  let k' := Z.min k (faiss.ntotal (index s)) in
  let hs := hits (index s) k' (prepared prec emax q) in
  search prec emax q k s =
    for_each (hs ++ replicate (Z.to_nat k' - length hs)%nat (faiss.lowest, -1)) []
      (fun results si =>
         let '(score, idx) := si in
         if 0 <=? idx then
           doc <- lift (getitem (documents s) idx) ;;
           ret (results ++ [(doc, score)])
         else ret results) s.
Proof.
  intros Hnz Hdim Hk k' hs.
  unfold search. rewrite bind_get.
  rewrite (proj2 (Z.eqb_neq _ 0)) by done.
  fold (prepared prec emax q).
  rewrite bind_lift. unfold faiss.search.
  cbn [reshape_row ncols rows]. rewrite prepared_length.
  rewrite decide_True by done.
  rewrite decide_True by (unfold faiss.ntotal in *; lia).
  cbn [map fmap list_fmap fst snd].
  rewrite search_row_eq. cbn zeta. cbn [fst snd].
  rewrite bind_lift. unfold getitem at 1.
  change (Z.to_nat 0) with 0%nat. cbn [lookup list_lookup].
  rewrite bind_lift. unfold getitem at 1.
  change (Z.to_nat 0) with 0%nat. cbn [lookup list_lookup].
  by rewrite zip_fst_snd.
Qed.

Lemma search_collect_pairs (docs : list Doc) entries acc (s : VectorStore) :
  Forall (fun e : float * Z => e.2 = -1 \/ (0 <= e.2 /\ (Z.to_nat e.2 < length docs)%nat))
         entries ->
  exists r,
    for_each entries acc
      (fun results si =>
         let '(score, idx) := si in
         if 0 <=? idx then
           doc <- lift (getitem docs idx) ;;
           ret (results ++ [(doc, score)])
         else ret results) s
    = (Ok (acc ++ r), s) /\
    Forall2 (fun e p => p.2 = e.1 /\ docs !! Z.to_nat e.2 = Some p.1)
            (filter (fun e => 0 <= e.2) entries) r.
Proof.
  intros Hent. revert acc.
  induction Hent as [|[score idx] entries He Hent IH]; intros acc.
  { exists []. cbn. rewrite app_nil_r. split; [done|constructor]. }
  cbn [for_each]. unfold bind at 1. cbn [snd] in He.
  destruct He as [->|[Hidx Hlt]].
  - cbn. destruct (IH acc) as (r & -> & Hr). exists r.
    split; [done|]. by rewrite decide_False by lia.
  - destruct (lookup_lt_is_Some_2 docs (Z.to_nat idx) Hlt) as [doc Hdoc].
    destruct (IH (acc ++ [(doc, score)])) as (r & Heq & Hr).
    exists ((doc, score) :: r). split.
    + rewrite (proj2 (Z.leb_le 0 idx)) by done.
      unfold bind at 1, lift at 1, getitem at 1. rewrite Hdoc.
      unfold ret at 1. etrans; [exact Heq|]. by rewrite <- app_assoc.
    + rewrite filter_cons_True by done. by constructor.
Qed.

Lemma search_collect_error (docs : list Doc) entries (s : VectorStore) :
  Forall (fun e : float * Z => e.2 = -1 \/ 0 <= e.2) entries ->
  Exists (fun e : float * Z => 0 <= e.2 /\ docs !! Z.to_nat e.2 = None) entries ->
  forall acc,
    for_each entries acc
      (fun results si =>
         let '(score, idx) := si in
         if 0 <=? idx then
           doc <- lift (getitem docs idx) ;;
           ret (results ++ [(doc, score)])
         else ret results) s
    = (Raise IndexError, s).
Proof.
  induction 1 as [|[score idx] entries He Hent IH]; intros Hbad acc.
  { by apply Exists_nil in Hbad. }
  cbn [for_each]. unfold bind at 1. cbn [snd] in He.
  apply Exists_cons in Hbad. destruct He as [->|Hidx].
  - cbn. apply IH. destruct Hbad as [[? _]|?]; [cbn in *; lia|done].
  - rewrite (proj2 (Z.leb_le 0 idx)) by done.
    unfold bind at 1, lift at 1, getitem at 1.
    destruct (docs !! Z.to_nat idx) as [doc|] eqn:Hdoc.
    + unfold ret at 1. apply IH.
      destruct Hbad as [[_ Hn]|?]; [cbn in Hn; congruence|done].
    + done.
Qed.
End Exercise2Loop.

Lemma sum_products_nan prec emax (v : Vector) n :
  v <> [] -> (0 < n)%nat ->
  np.sum_products prec emax (replicate n S754_nan) v = S754_nan.
Proof.
  intros Hv Hn. unfold np.sum_products.
  destruct v as [|c v]; [done|]. destruct n as [|n]; [lia|].
  cbn [replicate zip zip_with foldl fst snd].
  assert (forall acc, SFadd prec emax acc (SFmul prec emax S754_nan c) = S754_nan) as ->.
  { intros acc. by destruct acc. }
  clear. revert v. induction n as [|n IH]; intros [|c v]; try done.
  cbn [replicate zip zip_with foldl fst snd]. cbn [SFmul SFadd]. apply IH.
Qed.

(** ** The pipeline of exercise 1 *)

Section Pipeline1Facts.
Import Exercise1 Exercise1Inv.
Variables prec emax : Z.
Variable count_tokens : string -> Z.
Variable embed : string -> Vector.

Lemma insert_or_empty (md : option Metadata) (v : scalar) :
  or_empty (Some (<["token_count" := v]> (or_empty md)))
    = <["token_count" := v]> (default ∅ md).
Proof.
  assert (or_empty md = default ∅ md) as ->.
  { destruct md as [m|]; [|done]. cbn. by destruct (decide (m = ∅)) as [->|]. }
  unfold or_empty. destruct (decide _) as [He|]; [|done].
  by apply insert_non_empty in He.
Qed.

Lemma add_document_eq text md (s : VectorStore) :
  Pipeline1.add_document count_tokens embed text md s =
    (Ok (next_id s),
     {| documents := documents s ++
          [{| id := next_id s; text := text; embedding := embed text;
              metadata := <["token_count" := SInt (count_tokens text)]>
                            (default ∅ md) |}];
        next_id := next_id s + 1 |}).
Proof.
  unfold Pipeline1.add_document, bind at 1. rewrite add_eq1. unfold ret.
  by rewrite insert_or_empty.
Qed.

Lemma add_documents_loop texts : forall ids (s : VectorStore),
  for_each texts ids
    (fun ids text =>
       doc_id <- Pipeline1.add_document count_tokens embed text None ;;
       ret (ids ++ [doc_id])) s =
    (Ok (ids ++ seqZ (next_id s) (Z.of_nat (length texts))),
     {| documents := documents s ++
          imap (fun i text => counted count_tokens embed (next_id s + Z.of_nat i) text) texts;
        next_id := next_id s + Z.of_nat (length texts) |}).
Proof.
  induction texts as [|text texts IH]; intros ids s.
  - cbn. rewrite !app_nil_r, Z.add_0_r. by destruct s.
  - cbn [for_each]. unfold bind at 1, bind at 1. rewrite add_document_eq.
    unfold ret at 1. rewrite IH. cbn [next_id documents].
    f_equal.
    + f_equal. rewrite <- app_assoc. f_equal. cbn [length].
      rewrite Nat2Z.inj_succ, (seqZ_cons (next_id s)) by lia. cbn [app]. f_equal.
      f_equal; lia.
    + f_equal.
      * rewrite <- app_assoc. f_equal. cbn [imap app]. f_equal.
        -- unfold counted. f_equal. lia.
        -- apply imap_ext. intros i t _. cbn. f_equal. lia.
      * cbn [length]. lia.
Qed.
End Pipeline1Facts.

(** ** Python strings *)

Lemma length_substring n m s : (String.length (String.substring n m s) <= m)%nat.
Proof.
  revert n m. induction s as [|c s IH]; intros [|n] [|m]; cbn; try lia.
  - specialize (IH 0%nat m). lia.
  - apply IH.
  - apply IH.
Qed.

Lemma lstrip_head s :
  lstrip s = EmptyString \/ exists c s', lstrip s = String c s' /\ isspace c = false.
Proof.
  induction s as [|c s IH]; [by left|]. cbn.
  destruct (isspace c) eqn:Hc; [done|]. right. by exists c, s.
Qed.

Lemma rstrip_head c s :
  isspace c = false -> exists r, rstrip (String c s) = String c r.
Proof.
  intros Hc. cbn. rewrite Hc. destruct (rstrip s); by eexists.
Qed.

Lemma rstrip_idemp s : rstrip (rstrip s) = rstrip s.
Proof.
  induction s as [|c s IH]; [done|]. cbn.
  destruct (rstrip s) as [|c' r] eqn:Hr.
  - destruct (isspace c) eqn:Hc; [done|]. cbn. by rewrite Hc.
  - cbn [rstrip] in IH |- *. by rewrite IH.
Qed.

Lemma strip_stripped s : stripped (strip s).
Proof.
  unfold stripped, strip. split; [|apply rstrip_idemp].
  destruct (lstrip_head s) as [->|(c & s' & -> & Hc)]; [done|].
  destruct (rstrip_head c s' Hc) as [r ->]. cbn. by rewrite Hc.
Qed.

Lemma length_lstrip s : (String.length (lstrip s) <= String.length s)%nat.
Proof. induction s as [|c s IH]; cbn; [lia|]. destruct (isspace c); cbn; lia. Qed.

Lemma length_rstrip s : (String.length (rstrip s) <= String.length s)%nat.
Proof.
  induction s as [|c s IH]; cbn; [lia|].
  destruct (rstrip s); [destruct (isspace c)|]; cbn in *; lia.
Qed.

Lemma length_strip s : (String.length (strip s) <= String.length s)%nat.
Proof. unfold strip. pose proof (length_rstrip (lstrip s)). pose proof (length_lstrip s). lia. Qed.

Lemma length_slice start size s :
  0 <= start -> 0 <= size ->
  Z.of_nat (String.length (slice start (start + size) s)) <= size.
Proof.
  intros Hstart Hsize. unfold slice, slice_index.
  rewrite (proj2 (Z.ltb_ge start 0)), (proj2 (Z.ltb_ge (start + size) 0)) by lia.
  match goal with |- context [String.substring ?n ?m s] =>
    pose proof (length_substring n m s) end. lia.
Qed.

Lemma lstrip_substring n m s :
  lstrip s = EmptyString -> lstrip (String.substring n m s) = EmptyString.
Proof.
  revert n m. induction s as [|c s IH]; intros n m Hs.
  { by destruct n, m. }
  cbn in Hs. destruct (isspace c) eqn:Hc; [|done].
  destruct n as [|n], m as [|m]; cbn; rewrite ?Hc; auto.
Qed.

Lemma strip_slice_blank start stop s :
  lstrip s = EmptyString -> strip (slice start stop s) = EmptyString.
Proof. intros Hs. unfold strip, slice. by rewrite lstrip_substring. Qed.

(** ** The PDF loader *)

Section LoaderFacts.
Import pdf_loader pdf_loader_spec.
Variable pdfs : gmap string (list (option string)).
Variable path_name : string -> string.

Lemma split_page_enough chunk_size overlap page_text page_num name fuel :
  overlap < chunk_size ->
  forall start chunks chunk_index,
    Z.max 0 (Z.of_nat (String.length page_text) - start) < Z.of_nat fuel ->
    is_Some (split_page fuel chunk_size overlap page_text page_num name
               start chunks chunk_index).
Proof.
  intros Hstep. induction fuel as [|fuel IH]; intros start chunks chunk_index Hfuel;
    [lia|].
  cbn [split_page]. destruct (start <? _) eqn:Hlt; [|done].
  apply Z.ltb_lt in Hlt.
  destruct (decide (strip _ = EmptyString)); apply IH; lia.
Qed.

Lemma split_page_more chunk_size overlap page_text page_num name fuel :
  forall start chunks chunk_index r,
    split_page fuel chunk_size overlap page_text page_num name
      start chunks chunk_index = Some r ->
    forall fuel', (fuel <= fuel')%nat ->
      split_page fuel' chunk_size overlap page_text page_num name
        start chunks chunk_index = Some r.
Proof.
  induction fuel as [|fuel IH]; intros start chunks chunk_index r Hr fuel' Hle;
    [done|].
  destruct fuel' as [|fuel']; [lia|]. cbn [split_page] in Hr |- *.
  destruct (start <? _); [|done].
  destruct (decide (strip _ = EmptyString)); (eapply IH; [exact Hr|lia]).
Qed.

Lemma split_page_loops chunk_size overlap page_text page_num name fuel :
  chunk_size <= overlap ->
  forall start chunks chunk_index,
    start < Z.of_nat (String.length page_text) ->
    split_page fuel chunk_size overlap page_text page_num name
      start chunks chunk_index = None.
Proof.
  intros Hstep. induction fuel as [|fuel IH]; intros start chunks chunk_index Hlt;
    [done|].
  cbn [split_page]. rewrite (proj2 (Z.ltb_lt _ _)) by done.
  destruct (decide (strip _ = EmptyString)); apply IH; lia.
Qed.

(** What the loop over one page keeps: the chunks so far, then stripped
    windows of this page, numbered on. *)
Lemma split_page_chunks chunk_size overlap page_text page_num name fuel :
  0 <= chunk_size - overlap ->
  forall start chunks chunk_index chunks' chunk_index',
    0 <= start ->
    chunk_index = Z.of_nat (length chunks) ->
    split_page fuel chunk_size overlap page_text page_num name
      start chunks chunk_index = Some (chunks', chunk_index') ->
    chunk_index' = Z.of_nat (length chunks') /\
    exists new,
      chunks' = chunks ++ new /\
      (forall i c, new !! i = Some c -> chunk c = Z.of_nat (length chunks + i)) /\
      Forall (fun c =>
                text c <> EmptyString /\ page c = page_num /\ source c = name /\
                exists start',
                  0 <= start' < Z.of_nat (String.length page_text) /\
                  text c = strip (slice start' (start' + chunk_size) page_text)) new.
Proof.
  intros Hstep. induction fuel as [|fuel IH];
    intros start chunks chunk_index chunks' chunk_index' Hstart Hidx Hrun; [done|].
  cbn [split_page] in Hrun. destruct (start <? _) eqn:Hlt.
  2:{ injection Hrun as <- <-. split; [done|]. exists []. rewrite app_nil_r.
      split; [done|]. split; [by intros i c|done]. }
  apply Z.ltb_lt in Hlt.
  destruct (decide (strip _ = EmptyString)) as [Hempty|Hfull].
  { apply IH in Hrun; [done|lia|done]. }
  apply IH in Hrun as (Hidx' & new & -> & Hnum & Hnew); [|lia|].
  2:{ rewrite length_app. cbn. lia. }
  split; [done|]. eexists (_ :: new). split; [by rewrite <- app_assoc|]. split.
  - intros [|i] c Hc.
    + injection Hc as <-. cbn. lia.
    + cbn in Hc. apply Hnum in Hc. rewrite Hc, length_app. cbn. lia.
  - constructor; [|done]. cbn. do 3 (split; [done|]). exists start. split; [lia|done].
Qed.

Lemma load_pages_enough chunk_size overlap name fuel pages :
  overlap < chunk_size ->
  Forall (fun extracted => forall page_text,
            extracted = Some page_text -> (String.length page_text < fuel)%nat) pages ->
  forall page_num chunks chunk_index,
    is_Some (load_pages fuel chunk_size overlap name pages page_num chunks chunk_index).
Proof.
  intros Hstep Hfuel. induction Hfuel as [|extracted pages Hpage _ IH];
    intros page_num chunks chunk_index; [done|].
  cbn [load_pages]. destruct extracted as [[|c page_text]|]; [apply IH| |apply IH].
  destruct (split_page_enough chunk_size overlap (String c page_text) page_num name fuel
              Hstep 0 chunks chunk_index) as [[chunks' chunk_index'] ->].
  { specialize (Hpage _ eq_refl). lia. }
  apply IH.
Qed.

Lemma load_pages_more chunk_size overlap name fuel fuel' pages :
  (fuel <= fuel')%nat ->
  forall page_num chunks chunk_index r,
    load_pages fuel chunk_size overlap name pages page_num chunks chunk_index = Some r ->
    load_pages fuel' chunk_size overlap name pages page_num chunks chunk_index = Some r.
Proof.
  intros Hle. induction pages as [|extracted pages IH];
    intros page_num chunks chunk_index r Hr; [done|].
  cbn [load_pages] in Hr |- *.
  destruct extracted as [[|c page_text]|]; [by apply IH| |by apply IH].
  destruct (split_page fuel _ _ _ _ _ _ _ _) as [[chunks' chunk_index']|] eqn:Hsplit;
    [|done].
  rewrite (split_page_more _ _ _ _ _ _ _ _ _ _ Hsplit fuel' Hle). by apply IH.
Qed.

Lemma load_pages_loops chunk_size overlap name fuel pages :
  chunk_size <= overlap ->
  Exists (fun extracted => exists page_text,
            extracted = Some page_text /\ page_text <> EmptyString) pages ->
  forall page_num chunks chunk_index,
    load_pages fuel chunk_size overlap name pages page_num chunks chunk_index = None.
Proof.
  intros Hstep Hex.
  induction Hex as [extracted pages (page_text & -> & Hne)|extracted pages _ IH];
    intros page_num chunks chunk_index; cbn [load_pages].
  - destruct page_text as [|c page_text]; [done|].
    rewrite split_page_loops; [done..|]. cbn. lia.
  - destruct extracted as [[|c page_text]|]; [apply IH| |apply IH].
    destruct (split_page _ _ _ _ _ _ _ _ _) as [[chunks' chunk_index']|]; [apply IH|done].
Qed.

Lemma load_pages_chunks chunk_size overlap name fuel pages :
  0 <= chunk_size - overlap ->
  forall before page_num chunks chunk_index chunks',
    page_num = Z.of_nat (length before) + 1 ->
    chunk_index = Z.of_nat (length chunks) ->
    load_pages fuel chunk_size overlap name pages page_num chunks chunk_index
      = Some chunks' ->
    exists new,
      chunks' = chunks ++ new /\
      (forall i c, new !! i = Some c -> chunk c = Z.of_nat (length chunks + i)) /\
      Forall (fun c => text c <> EmptyString /\
                       window_of (before ++ pages) chunk_size name c) new.
Proof.
  intros Hstep. induction pages as [|extracted pages IH];
    intros before page_num chunks chunk_index chunks' Hnum Hidx Hrun.
  { injection Hrun as <-. exists []. rewrite app_nil_r.
    split; [done|]. split; [by intros i c|done]. }
  cbn [load_pages] in Hrun.
  assert (forall chunks1 chunk_index1,
            chunk_index1 = Z.of_nat (length chunks1) ->
            load_pages fuel chunk_size overlap name pages (page_num + 1)
              chunks1 chunk_index1 = Some chunks' ->
            exists new,
              chunks' = chunks1 ++ new /\
              (forall i c, new !! i = Some c -> chunk c = Z.of_nat (length chunks1 + i)) /\
              Forall (fun c => text c <> EmptyString /\
                               window_of (before ++ extracted :: pages)
                                 chunk_size name c) new) as Hrest.
  { intros chunks1 chunk_index1 Hidx1 Hrun1.
    destruct (IH (before ++ [extracted]) (page_num + 1) chunks1 chunk_index1 chunks')
      as (new & -> & Hn & Hw); [|done..|].
    { rewrite length_app. cbn. lia. }
    exists new. by rewrite <- app_assoc in Hw. }
  destruct extracted as [[|c0 page_text]|]; [by eapply Hrest| |by eapply Hrest].
  destruct (split_page _ _ _ _ _ _ _ _ _) as [[chunks1 chunk_index1]|] eqn:Hsplit;
    [|done].
  apply split_page_chunks in Hsplit as (Hidx1 & new1 & -> & Hn1 & Hw1); [|done|lia|done].
  apply Hrest in Hrun as (new2 & -> & Hn2 & Hw2); [|done].
  exists (new1 ++ new2). split; [by rewrite <- app_assoc|]. split.
  - intros i c Hc. apply lookup_app_Some in Hc as [Hc|[Hge Hc]].
    + by apply Hn1.
    + apply Hn2 in Hc. rewrite Hc, length_app. lia.
  - apply Forall_app. split; [|done].
    eapply Forall_impl; [exact Hw1|]. cbn.
    intros c (Htext & Hpage & Hsource & start' & Hstart' & Hwin).
    split; [done|]. exists (String c0 page_text), start'.
    split; [lia|]. split; [|done].
    rewrite Hpage, Hnum.
    replace (Z.to_nat (Z.of_nat (length before) + 1 - 1)) with (length before) by lia.
    by rewrite lookup_app_r, Nat.sub_diag by done.
Qed.
End LoaderFacts.

Section LoaderBlank.
Import pdf_loader.

Lemma split_page_blank chunk_size overlap page_text page_num name fuel :
  lstrip page_text = EmptyString ->
  forall start chunks chunk_index r,
    split_page fuel chunk_size overlap page_text page_num name
      start chunks chunk_index = Some r ->
    r = (chunks, chunk_index).
Proof.
  intros Hblank. induction fuel as [|fuel IH]; intros start chunks chunk_index r Hr;
    [done|].
  cbn [split_page] in Hr. destruct (start <? _); [|by injection Hr].
  rewrite strip_slice_blank in Hr by done. rewrite decide_True in Hr by done.
  by apply IH in Hr.
Qed.

Lemma load_pages_blank chunk_size overlap name fuel pages :
  Forall (fun extracted => forall page_text,
            extracted = Some page_text -> lstrip page_text = EmptyString) pages ->
  forall page_num chunks chunk_index chunks',
    load_pages fuel chunk_size overlap name pages page_num chunks chunk_index
      = Some chunks' ->
    chunks' = chunks.
Proof.
  intros Hblank. induction Hblank as [|extracted pages Hpage _ IH];
    intros page_num chunks chunk_index chunks' Hrun.
  { by injection Hrun. }
  cbn [load_pages] in Hrun.
  destruct extracted as [[|c page_text]|]; [by eapply IH| |by eapply IH].
  destruct (split_page _ _ _ _ _ _ _ _ _) as [r|] eqn:Hsplit; [|done].
  apply split_page_blank in Hsplit as ->; [|by apply Hpage]. by eapply IH.
Qed.
End LoaderBlank.

(** A file of three pages, with windows of five characters that overlap
    by two. *)
Example load_pdf_example :
  pdf_loader.load_pdf PipelineExamples.pdfs PipelineExamples.path_name 20 "a.pdf" 5 2
  = Some (Ok (imap (fun i (tp : string * Z) =>
                      {| pdf_loader.text := tp.1; pdf_loader.page := tp.2;
                         pdf_loader.chunk := Z.of_nat i;
                         pdf_loader.source := "a.pdf" |})
                [("hello", 1); ("lo wo", 1); ("world", 1); ("ld", 1); ("ab", 3)])).
Proof. vm_compute. reflexivity. Qed.

Lemma load_pdf_sources (pdfs : gmap string (list (option string)))
    (path_name : string -> string) (fuel : nat) pdf_path pages chunk_size overlap :
  pdfs !! pdf_path = Some pages ->
  overlap < chunk_size ->
  Forall (fun extracted => forall page_text,
            extracted = Some page_text -> (String.length page_text < fuel)%nat) pages ->
  exists chunks,
    pdf_loader.load_pdf pdfs path_name fuel pdf_path chunk_size overlap
      = Some (Ok chunks) /\
    Forall (fun c => pdf_loader.source c = path_name pdf_path) chunks.
Proof.
  intros Hfile Hstep Hfuel.
  destruct (load_pages_enough chunk_size overlap (path_name pdf_path) fuel pages
              Hstep Hfuel 1 [] 0) as [chunks Hrun].
  exists chunks. split.
  - unfold pdf_loader.load_pdf. by rewrite Hfile, Hrun.
  - apply (load_pages_chunks chunk_size overlap (path_name pdf_path) fuel pages
             ltac:(lia) []) in Hrun as (new & -> & _ & Hwin); [|done..].
    cbn [app] in *. eapply Forall_impl; [exact Hwin|]. cbn.
    by intros c (_ & page_text & start & _ & _ & _ & _ & Hsource).
Qed.

(** ** The pipeline of exercise 2 *)

Section Pipeline2Facts.
Import Exercise2 Exercise2Spec.
Variables prec emax : Z.
Variable pdfs : gmap string (list (option string)).
Variable path_name : string -> string.
Variable embed : string -> Vector.
Variable embed_batch : list string -> ndarray2.

Lemma index_pdf_run fuel pdf_path chunks (s : VectorStore) :
  pdf_loader.load_pdf pdfs path_name fuel pdf_path 500 50 = Some (Ok chunks) ->
  ncols (embed_batch (map pdf_loader.text chunks)) = faiss.d (index s) ->
  exists run,
    Pipeline2.index_pdf prec emax pdfs path_name embed_batch fuel pdf_path = Some run /\
    run s =
      (Ok (Z.of_nat (length chunks)),
       match chunks with
       | [] => s
       | _ =>
           {| dimension := dimension s;
              index :=
                {| faiss.d := faiss.d (index s);
                   faiss.xb := faiss.xb (index s) ++
                     map (fun v => np.astype_float32 (normalize prec emax v))
                         (rows (embed_batch (map pdf_loader.text chunks))) |};
              documents := documents s ++ map chunk_record chunks |}
       end).
Proof.
  intros Hload Hcols. unfold Pipeline2.index_pdf. rewrite Hload.
  eexists. split; [reflexivity|]. rewrite bind_lift.
  destruct chunks as [|c chunks]; [done|].
  unfold bind at 1. rewrite add_batch_eq by done. unfold ret.
  f_equal. f_equal. f_equal.
  set (cs := c :: chunks). clearbody cs. clear.
  unfold or_empty_dicts.
  induction cs as [|c cs IH]; [done|].
  cbn [map zip zip_with fst snd]. f_equal.
  destruct cs as [|c' cs]; [done|]. exact IH.
Qed.
End Pipeline2Facts.

(** * Further properties *)

(** X1.  On the exact index identities are positions.  A fresh store is numbered
    that way, and [add] on such a store returns the number of records held
    so far, appends the record with that identity, the given text and
    embedding and [metadata or {}], and keeps the numbering: no two records
    share an identity. *)
Theorem exact_add_numbers_records :
  Exercise1Inv.well_numbered Exercise1.init /\
  (forall text e md (s : Exercise1.VectorStore),
     Exercise1Inv.well_numbered s ->
     exists s',
       Exercise1.add text e md s = (Ok (Z.of_nat (length (Exercise1.documents s))), s') /\
       Exercise1.documents s' =
         Exercise1.documents s ++
         [{| Exercise1.id := Z.of_nat (length (Exercise1.documents s));
             Exercise1.text := text; Exercise1.embedding := e;
             Exercise1.metadata := or_empty md |}] /\
       Exercise1Inv.well_numbered s' /\
       NoDup (Exercise1.id <$> Exercise1.documents s')).
Proof.
  split; [by split|]. intros text e md s Hs.
  pose proof (well_numbered_add text e md s Hs) as Hs'.
  unfold exec in Hs'. rewrite add_eq1 in Hs' |- *. destruct Hs as [Hn _].
  rewrite Hn in Hs' |- *. cbn [snd] in Hs'.
  eexists. split; [reflexivity|]. cbn [Exercise1.documents].
  split; [done|]. split; [done|]. by apply well_numbered_NoDup in Hs'.
Qed.

Lemma exact_add_numbers_records_witness :
  Exercise1Inv.well_numbered Examples.exact3 /\
  exists s',
    Exercise1.add "D" [Examples.f64 0; Examples.f64 2] None Examples.exact3
      = (Ok 3, s') /\
    Exercise1Inv.well_numbered s' /\
    NoDup (Exercise1.id <$> Exercise1.documents s').
Proof.
  assert (Exercise1Inv.well_numbered Examples.exact3) as Hs.
  { split; [reflexivity|]. intros [|[|[|i]]] doc [= <-]; reflexivity. }
  split; [exact Hs|].
  destruct (proj2 exact_add_numbers_records "D"%string
              [Examples.f64 0; Examples.f64 2] None Examples.exact3 Hs)
    as (s' & Heq & _ & Hw & Hnd).
  by exists s'.
Defined.

(** X2.  [search] on the exact index returns the best records: for
    [top_k >= 0], stored embeddings of the query's length and no NaN score,
    the result and the records left out together are all scored records,
    the result has [min(top_k, count)] entries, and no record left out has
    a score greater than one that is returned. *)
Theorem exact_search_best_first (prec emax : Z) q k (s : Exercise1.VectorStore) :
  0 <= k ->
  Exercise1Spec.same_dimension q s ->
  Exercise1Spec.scores_ordered prec emax q s ->
  exists r rest,
    Exercise1.search prec emax q k s = (Ok r, s) /\
    r ++ rest ≡ₚ Exercise1Spec.scored prec emax q (Exercise1.documents s) /\
    Z.of_nat (length r) = Z.min k (Z.of_nat (length (Exercise1.documents s))) /\
    forall x y, x ∈ r -> y ∈ rest -> SFltb x.2 y.2 = false.
Proof.
  intros Hk Hdim Hord.
  exists (take (Z.to_nat k) (Exercise1Spec.ranking prec emax q (Exercise1.documents s))),
         (drop (Z.to_nat k) (Exercise1Spec.ranking prec emax q (Exercise1.documents s))).
  split; [|split; [|split]].
  - rewrite search_eq by done. unfold slice_to. by rewrite (proj2 (Z.leb_le 0 k)).
  - rewrite take_drop. apply ranking_perm.
  - rewrite length_take, ranking_perm. unfold Exercise1Spec.scored.
    rewrite length_map. lia.
  - by apply ranking_split.
Qed.

Lemma exact_search_best_first_witness :
  let q := [Examples.f64 1; Examples.f64 0] in
  0 <= 2 /\
  Exercise1Spec.same_dimension q Examples.exact3 /\
  Exercise1Spec.scores_ordered 53 1024 q Examples.exact3 /\
  exists r rest,
    Exercise1.search 53 1024 q 2 Examples.exact3 = (Ok r, Examples.exact3) /\
    r ++ rest ≡ₚ Exercise1Spec.scored 53 1024 q (Exercise1.documents Examples.exact3) /\
    Z.of_nat (length r)
      = Z.min 2 (Z.of_nat (length (Exercise1.documents Examples.exact3))) /\
    forall x y, x ∈ r -> y ∈ rest -> SFltb x.2 y.2 = false.
Proof.
  intros q.
  assert (Exercise1Spec.same_dimension q Examples.exact3) as Hdim
    by (repeat constructor).
  assert (Exercise1Spec.scores_ordered 53 1024 q Examples.exact3) as Hord
    by (repeat constructor; intros H; vm_compute in H; discriminate).
  split; [lia|]. split; [exact Hdim|]. split; [exact Hord|].
  apply (exact_search_best_first 53 1024 q 2 Examples.exact3); [lia|exact Hdim|exact Hord].
Defined.

(** X3.  Ties keep the order of insertion: among the results of [search]
    on the exact index, the records whose score equals a given score [c]
    appear in the order in which they were added, and are the first of the
    stored records with that score ([list.sort] is stable and
    [reverse=True] keeps the order of equal keys). *)
Theorem exact_search_ties_in_insertion_order (prec emax : Z) q k
    (s : Exercise1.VectorStore) (c : float) :
  Exercise1Spec.same_dimension q s ->
  Exercise1Spec.scores_ordered prec emax q s ->
  c <> S754_nan ->
  exists r,
    Exercise1.search prec emax q k s = (Ok r, s) /\
    filter (fun p => same_score c p.2) r `prefix_of`
      filter (fun p => same_score c p.2)
             (Exercise1Spec.scored prec emax q (Exercise1.documents s)).
Proof.
  intros Hdim Hord Hc. eexists. split; [by apply search_eq|].
  destruct (slice_to_take k (Exercise1Spec.ranking prec emax q (Exercise1.documents s)))
    as (n & -> & _).
  rewrite <- (ranking_ties prec emax q s c) by done.
  rewrite <- (take_drop n (Exercise1Spec.ranking prec emax q (Exercise1.documents s))) at 2.
  rewrite filter_app. by eexists.
Qed.

Lemma exact_search_ties_in_insertion_order_witness :
  let q := [Examples.f64 1; Examples.f64 1] in
  let c := Exercise1Spec.cosine_value 53 1024 q [Examples.f64 1; Examples.f64 0] in
  Exercise1Spec.same_dimension q Examples.exact3 /\
  Exercise1Spec.scores_ordered 53 1024 q Examples.exact3 /\
  c <> S754_nan /\
  exists r,
    Exercise1.search 53 1024 q 2 Examples.exact3 = (Ok r, Examples.exact3) /\
    filter (fun p => same_score c p.2) r `prefix_of`
      filter (fun p => same_score c p.2)
             (Exercise1Spec.scored 53 1024 q (Exercise1.documents Examples.exact3)).
Proof.
  intros q c.
  assert (Exercise1Spec.same_dimension q Examples.exact3) as Hdim
    by (repeat constructor).
  assert (Exercise1Spec.scores_ordered 53 1024 q Examples.exact3) as Hord
    by (repeat constructor; intros H; vm_compute in H; discriminate).
  assert (c <> S754_nan) as Hc by (intros H; vm_compute in H; discriminate).
  split; [exact Hdim|]. split; [exact Hord|]. split; [exact Hc|].
  apply (exact_search_ties_in_insertion_order 53 1024 q 2 Examples.exact3 c);
    [exact Hdim|exact Hord|exact Hc].
Defined.

(** X4.  A query whose components are all zero has norm zero: on the exact
    index every record scores [0.0] through the guard of
    [_cosine_similarity], and [search] returns the first [top_k] records in
    insertion order, each with the score [0.0]. *)
Theorem exact_search_zero_query (prec emax : Z) q k (s : Exercise1.VectorStore) :
  Forall (fun c => exists sign, c = S754_zero sign) q ->
  Exercise1Spec.same_dimension q s ->
  Exercise1.search prec emax q k s =
    (Ok (slice_to k (map (fun doc => (doc, S754_zero false)) (Exercise1.documents s))), s).
Proof.
  intros Hq Hdim. rewrite search_eq by done. do 3 f_equal.
  unfold Exercise1Spec.ranking.
  assert (Exercise1Spec.scored prec emax q (Exercise1.documents s)
          = map (fun doc => (doc, S754_zero false)) (Exercise1.documents s)) as ->.
  { unfold Exercise1Spec.scored. apply map_ext. intros doc.
    unfold Exercise1Spec.cosine_value. by rewrite (zero_norm prec emax q Hq). }
  unfold sort_reverse. rewrite sort_stable_id; [apply reverse_involutive|].
  intros i j x y _ Hx Hy.
  apply list_elem_of_lookup_2, elem_of_reverse, list_elem_of_fmap in Hx as (? & -> & _).
  apply list_elem_of_lookup_2, elem_of_reverse, list_elem_of_fmap in Hy as (? & -> & _).
  reflexivity.
Qed.

Lemma exact_search_zero_query_witness :
  let q := [S754_zero false; S754_zero true] in
  Forall (fun c => exists sign, c = S754_zero sign) q /\
  Exercise1Spec.same_dimension q Examples.exact3 /\
  Exercise1.search 53 1024 q 2 Examples.exact3 =
    (Ok (slice_to 2 (map (fun doc => (doc, S754_zero false))
                         (Exercise1.documents Examples.exact3))), Examples.exact3).
Proof.
  intros q.
  assert (Forall (fun c => exists sign, c = S754_zero sign) q) as Hq
    by (repeat constructor; by eexists).
  assert (Exercise1Spec.same_dimension q Examples.exact3) as Hdim
    by (repeat constructor).
  split; [exact Hq|]. split; [exact Hdim|].
  apply (exact_search_zero_query 53 1024 q 2 Examples.exact3); [exact Hq|exact Hdim].
Defined.

(** X5.  [search] on the exact index raises [ValueError] (from [np.dot])
    as soon as one stored embedding has another length than the query, for
    every [top_k], and leaves the store as it was.  [add] accepts such
    embeddings, so the error appears only at query time. *)
Theorem exact_search_other_dimension (prec emax : Z) q k
    (s : Exercise1.VectorStore) :
  Exists (fun doc => length (Exercise1.embedding doc) <> length q)
    (Exercise1.documents s) ->
  Exercise1.search prec emax q k s = (Raise ValueError, s).
Proof.
  intros Hex. unfold Exercise1.search. rewrite bind_get.
  destruct (Exercise1.documents s) as [|doc docs] eqn:Hdocs.
  { by apply Exists_nil in Hex. }
  unfold bind at 1. by rewrite search_mismatch_loop.
Qed.

Lemma exact_search_other_dimension_witness :
  let q := [Examples.f64 1; Examples.f64 0; Examples.f64 0] in
  Exists (fun doc => length (Exercise1.embedding doc) <> length q)
    (Exercise1.documents Examples.exact3) /\
  Exercise1.search 53 1024 q 2 Examples.exact3 = (Raise ValueError, Examples.exact3).
Proof.
  intros q.
  assert (Exists (fun doc => length (Exercise1.embedding doc) <> length q)
            (Exercise1.documents Examples.exact3)) as Hex
    by (apply Exists_cons_hd; cbn; lia).
  split; [exact Hex|].
  apply (exact_search_other_dimension 53 1024 q 2 Examples.exact3 Hex).
Defined.

(** X6.  On the normalized index [add] keeps records and vectors aligned:
    for an embedding of the index's dimension on an aligned store it returns
    the position of the new record, which is the former number of records;
    the record with the text and [metadata or {}] and the normalized float32
    vector are both stored at that position; earlier positions are
    unchanged, and [count()] is one more. *)
Theorem normalized_add_keeps_alignment (prec emax : Z) text v md
    (s : Exercise2.VectorStore) :
  Exercise2Spec.aligned s ->
  Z.of_nat (length v) = faiss.d (Exercise2.index s) ->
  exists s',
    Exercise2.add prec emax text v md s
      = (Ok (Z.of_nat (length (Exercise2.documents s))), s') /\
    Exercise2Spec.aligned s' /\
    Exercise2.documents s' !! length (Exercise2.documents s)
      = Some {| Exercise2.text := text; Exercise2.metadata := or_empty md |} /\
    faiss.xb (Exercise2.index s') !! length (Exercise2.documents s)
      = Some (np.astype_float32 (Exercise2.normalize prec emax v)) /\
    (forall i, (i < length (Exercise2.documents s))%nat ->
       Exercise2.documents s' !! i = Exercise2.documents s !! i /\
       faiss.xb (Exercise2.index s') !! i = faiss.xb (Exercise2.index s) !! i) /\
    (Exercise2.count s').1 = Ok (Z.of_nat (length (Exercise2.documents s)) + 1).
Proof.
  intros Hal Hdim. rewrite add_eq by done. eexists. split.
  { f_equal. f_equal. lia. }
  unfold Exercise2Spec.aligned in *.
  cbn [Exercise2.documents Exercise2.index faiss.xb].
  split; [by rewrite !length_app, Hal|].
  split; [by rewrite lookup_app_r, Nat.sub_diag by done|].
  split; [by rewrite <- Hal, lookup_app_r, Nat.sub_diag by done|].
  split.
  - intros i Hi. by rewrite !lookup_app_l by lia.
  - unfold Exercise2.count, bind, get, ret. cbn. rewrite length_app. cbn. f_equal. lia.
Qed.

Lemma normalized_add_keeps_alignment_witness :
  let v := [Examples.f32 0; Examples.f32 2] in
  Exercise2Spec.aligned Examples.normalized3 /\
  Z.of_nat (length v) = faiss.d (Exercise2.index Examples.normalized3) /\
  exists s',
    Exercise2.add 24 128 "D" v None Examples.normalized3 = (Ok 3, s') /\
    Exercise2Spec.aligned s' /\
    (Exercise2.count s').1 = Ok 4.
Proof.
  intros v.
  destruct (normalized_add_keeps_alignment 24 128 "D"%string v None
              Examples.normalized3 eq_refl eq_refl)
    as (s' & Heq & Hal & _ & _ & _ & Hcount).
  split; [reflexivity|]. split; [reflexivity|].
  exists s'. split; [exact Heq|]. split; [exact Hal|exact Hcount].
Defined.

(** X7.  [add_batch] keeps records and vectors aligned when [metadatas] is
    absent, empty or at least as long as [texts] and there is one row per
    text: the texts are appended in order, text [i] with [metadatas[i]] (or
    [{}]), and row [i] is stored normalized as float32.  With rows of
    another width than the index's dimension [add_batch] raises and stores
    nothing. *)
Theorem add_batch_keeps_alignment (prec emax : Z) :
  (forall texts embeddings metadatas (s : Exercise2.VectorStore),
     Exercise2Spec.aligned s ->
     ncols embeddings = faiss.d (Exercise2.index s) ->
     length (rows embeddings) = length texts ->
     Exercise2Inv.covers metadatas (length texts) ->
     exists s',
       Exercise2.add_batch prec emax texts embeddings metadatas s = (Ok tt, s') /\
       Exercise2Spec.aligned s' /\
       Exercise2.text <$> Exercise2.documents s'
         = (Exercise2.text <$> Exercise2.documents s) ++ texts /\
       Exercise2.metadata <$> Exercise2.documents s'
         = (Exercise2.metadata <$> Exercise2.documents s) ++
           take (length texts) (Exercise2.or_empty_dicts metadatas (length texts)) /\
       faiss.xb (Exercise2.index s')
         = faiss.xb (Exercise2.index s) ++
           map (fun v => np.astype_float32 (Exercise2.normalize prec emax v))
               (rows embeddings)) /\
  (forall texts embeddings metadatas (s : Exercise2.VectorStore),
     ncols embeddings <> faiss.d (Exercise2.index s) ->
     Exercise2.add_batch prec emax texts embeddings metadatas s
       = (Raise AssertionError, s)).
Proof.
  split.
  - intros texts embeddings metadatas s Hal Hdim Hrows Hcov.
    rewrite add_batch_eq by done. eexists. split; [done|].
    cbn [Exercise2.documents Exercise2.index faiss.xb].
    set (mds := Exercise2.or_empty_dicts metadatas (length texts)).
    assert (length texts <= length mds)%nat as Hlen.
    { unfold mds. destruct metadatas as [[|m ms]|]; cbn [Exercise2.or_empty_dicts];
        rewrite ?length_replicate; done. }
    assert (Exercise2.text <$> (map (fun tm : string * Metadata =>
                {| Exercise2.text := tm.1; Exercise2.metadata := tm.2 |}) (zip texts mds))
            = texts) as Htexts.
    { clearbody mds. clear -Hlen. revert mds Hlen.
      induction texts as [|t texts IH]; intros [|m mds] Hlen; cbn in *; try done; try lia.
      f_equal. apply IH. lia. }
    assert (Exercise2.metadata <$> (map (fun tm : string * Metadata =>
                {| Exercise2.text := tm.1; Exercise2.metadata := tm.2 |}) (zip texts mds))
            = take (length texts) mds) as Hmds.
    { clearbody mds. clear -Hlen. revert mds Hlen.
      induction texts as [|t texts IH]; intros [|m mds] Hlen; cbn in *; try done; try lia.
      f_equal. apply IH. lia. }
    split; [|split; [|split]].
    + unfold Exercise2Spec.aligned in *. cbn [Exercise2.documents Exercise2.index faiss.xb].
      rewrite !length_app, !length_map, Hal, Hrows.
      rewrite length_zip. lia.
    + by rewrite fmap_app, Htexts.
    + by rewrite fmap_app, Hmds.
    + done.
  - intros texts embeddings metadatas s Hdim.
    unfold Exercise2.add_batch. rewrite bind_get, bind_lift. unfold faiss.add.
    by rewrite decide_False by done.
Qed.

Lemma add_batch_keeps_alignment_witness :
  let texts := ["t1"; "t2"]%string in
  let good := {| ncols := 2; rows := [[Examples.f32 1; Examples.f32 0];
                                       [Examples.f32 0; Examples.f32 3]] |} in
  let bad := {| ncols := 3; rows := [[Examples.f32 1; Examples.f32 0; Examples.f32 0];
                                      [Examples.f32 0; Examples.f32 3; Examples.f32 0]] |} in
  (Exercise2Spec.aligned Examples.normalized3 /\
   ncols good = faiss.d (Exercise2.index Examples.normalized3) /\
   length (rows good) = length texts /\
   Exercise2Inv.covers None (length texts) /\
   exists s',
     Exercise2.add_batch 24 128 texts good None Examples.normalized3 = (Ok tt, s') /\
     Exercise2Spec.aligned s' /\
     Exercise2.text <$> Exercise2.documents s' = ["A"; "B"; "C"; "t1"; "t2"]%string) /\
  (ncols bad <> faiss.d (Exercise2.index Examples.normalized3) /\
   Exercise2.add_batch 24 128 texts bad None Examples.normalized3
     = (Raise AssertionError, Examples.normalized3)).
Proof.
  intros texts good bad. split.
  - destruct (proj1 (add_batch_keeps_alignment 24 128) texts good None
                Examples.normalized3 eq_refl eq_refl eq_refl I)
      as (s' & Heq & Hal & Htexts & _).
    split; [reflexivity|]. split; [reflexivity|]. split; [reflexivity|].
    split; [exact I|]. exists s'. split; [exact Heq|]. split; [exact Hal|exact Htexts].
  - assert (ncols bad <> faiss.d (Exercise2.index Examples.normalized3)) as Hne
      by (intros H; vm_compute in H; discriminate).
    split; [exact Hne|].
    apply (proj2 (add_batch_keeps_alignment 24 128) texts bad None
             Examples.normalized3 Hne).
Defined.

(** X8.  Every result of [search] on the normalized index is a stored
    record paired with the inner product of the normalized query and the
    vector stored at the record's own position: on an aligned store, for a
    query of the index's dimension and [top_k > 0], [search] returns, and
    each result [(doc, score)] has a position [i] with [documents[i] = doc]
    and [score = <query, xb[i]>]. *)
Theorem normalized_search_pairs_positions (prec emax : Z) q k
    (s : Exercise2.VectorStore) :
  Exercise2Spec.aligned s ->
  Z.of_nat (length q) = faiss.d (Exercise2.index s) ->
  0 < k ->
  exists r,
    Exercise2.search prec emax q k s = (Ok r, s) /\
    Forall (fun p => exists i v,
              Exercise2.documents s !! i = Some p.1 /\
              faiss.xb (Exercise2.index s) !! i = Some v /\
              p.2 = faiss.inner_product (Exercise2Spec.prepared prec emax q) v) r.
Proof.
  intros Hal Hdim Hk.
  destruct (decide (faiss.ntotal (Exercise2.index s) = 0)) as [Hz|Hnz].
  { exists []. by rewrite search_empty. }
  rewrite search_run by done. cbn zeta.
  set (k' := Z.min k (faiss.ntotal (Exercise2.index s))).
  set (hs := Exercise2Spec.hits (Exercise2.index s) k' (Exercise2Spec.prepared prec emax q)).
  destruct (search_collect_pairs (Exercise2.documents s)
              (hs ++ replicate (Z.to_nat k' - length hs)%nat (faiss.lowest, -1))
              [] s) as (r & Heq & Hr).
  { apply Forall_app. split.
    - apply Forall_forall. intros h Hh.
      apply hits_elem in Hh as (_ & i & v & Hv & ->). right. cbn.
      apply lookup_lt_Some in Hv. rewrite Nat2Z.id, <- Hal. lia.
    - apply Forall_replicate. by left. }
  exists r. split; [exact Heq|].
  rewrite filter_app, (filter_none _ (replicate _ _)), app_nil_r in Hr.
  2:{ apply Forall_replicate. cbn. lia. }
  apply Forall_forall. intros p Hp.
  apply list_elem_of_lookup in Hp as [j Hj].
  destruct (Forall2_lookup_r _ _ _ _ _ Hr Hj) as (e & He & -> & Hdoc).
  apply list_elem_of_lookup_2, list_elem_of_filter in He as [_ He].
  apply hits_elem in He as (_ & i & v & Hv & ->). cbn in *.
  rewrite Nat2Z.id in Hdoc. by exists i, v.
Qed.

Lemma normalized_search_pairs_positions_witness :
  let q := [Examples.f32 1; Examples.f32 0] in
  Exercise2Spec.aligned Examples.normalized3 /\
  Z.of_nat (length q) = faiss.d (Exercise2.index Examples.normalized3) /\
  0 < 2 /\
  exists r,
    Exercise2.search 24 128 q 2 Examples.normalized3 = (Ok r, Examples.normalized3) /\
    Forall (fun p => exists i v,
              Exercise2.documents Examples.normalized3 !! i = Some p.1 /\
              faiss.xb (Exercise2.index Examples.normalized3) !! i = Some v /\
              p.2 = faiss.inner_product (Exercise2Spec.prepared 24 128 q) v) r.
Proof.
  intros q. split; [reflexivity|]. split; [reflexivity|]. split; [lia|].
  apply (normalized_search_pairs_positions 24 128 q 2 Examples.normalized3);
    [reflexivity|reflexivity|lia].
Defined.

(** X9.  A query whose components are all zero finds nothing on the
    normalized index: its norm is zero, the normalized query is all NaN,
    every inner product is NaN, faiss reports no position for it, and
    [search] returns the empty list whatever the index holds. *)
Theorem normalized_search_zero_query (prec emax : Z) q k
    (s : Exercise2.VectorStore) :
  Forall (fun c => exists sign, c = S754_zero sign) q ->
  q <> [] ->
  Z.of_nat (length q) = faiss.d (Exercise2.index s) ->
  Exercise2Spec.uniform (Exercise2.index s) ->
  0 < k ->
  Exercise2.search prec emax q k s = (Ok [], s).
Proof.
  intros Hzero Hq Hdim Huni Hk.
  destruct (decide (faiss.ntotal (Exercise2.index s) = 0)) as [Hz|Hnz].
  { by rewrite search_empty. }
  rewrite search_run by done. cbn zeta.
  assert (forall k', Exercise2Spec.hits (Exercise2.index s) k'
            (Exercise2Spec.prepared prec emax q) = []) as ->.
  { intros k'. unfold Exercise2Spec.hits. rewrite zero_prepared by done.
    rewrite filter_none; [by destruct (Z.to_nat k')|].
    apply Forall_forall. intros c Hc.
    apply list_elem_of_lookup in Hc as [i Hc].
    rewrite list_lookup_imap in Hc.
    destruct (faiss.xb (Exercise2.index s) !! i) as [v|] eqn:Hv; [|done].
    injection Hc as <-. cbn [fst].
    unfold faiss.inner_product. rewrite sum_products_nan.
    - by rewrite SFltb_nan_r.
    - unfold Exercise2Spec.uniform in Huni.
      rewrite Forall_lookup in Huni. specialize (Huni _ _ Hv).
      destruct v; [|done]. destruct q; [done|]. cbn in *. lia.
    - destruct q; [done|]. cbn. lia. }
  cbn [app length]. rewrite Nat.sub_0_r.
  generalize (Z.to_nat (Z.min k (faiss.ntotal (Exercise2.index s)))).
  intros n. induction n as [|n IH]; [done|].
  cbn [replicate for_each]. unfold bind at 1. cbn. apply IH.
Qed.

Lemma normalized_search_zero_query_witness :
  let q := [S754_zero false; S754_zero false] in
  Forall (fun c => exists sign, c = S754_zero sign) q /\
  q <> [] /\
  Z.of_nat (length q) = faiss.d (Exercise2.index Examples.normalized3) /\
  Exercise2Spec.uniform (Exercise2.index Examples.normalized3) /\
  0 < 2 /\
  Exercise2.search 24 128 q 2 Examples.normalized3 = (Ok [], Examples.normalized3).
Proof.
  intros q.
  assert (Forall (fun c => exists sign, c = S754_zero sign) q) as Hq
    by (repeat constructor; by eexists).
  assert (q <> []) as Hne by discriminate.
  assert (Exercise2Spec.uniform (Exercise2.index Examples.normalized3)) as Huni
    by (repeat constructor).
  split; [exact Hq|]. split; [exact Hne|]. split; [reflexivity|].
  split; [exact Huni|]. split; [lia|].
  apply (normalized_search_zero_query 24 128 q 2 Examples.normalized3);
    [exact Hq|exact Hne|reflexivity|exact Huni|lia].
Defined.

(** X10.  When the index holds more vectors than there are records,
    [search] raises [IndexError] as soon as faiss reports a position
    without a record ([self.documents[idx]]), and leaves the store as it
    was. *)
Theorem normalized_search_missing_record (prec emax : Z) q k
    (s : Exercise2.VectorStore) :
  Z.of_nat (length q) = faiss.d (Exercise2.index s) ->
  0 < k ->
  Exists (fun h => (length (Exercise2.documents s) <= Z.to_nat h.2)%nat)
    (Exercise2Spec.hits (Exercise2.index s)
       (Z.min k (faiss.ntotal (Exercise2.index s)))
       (Exercise2Spec.prepared prec emax q)) ->
  Exercise2.search prec emax q k s = (Raise IndexError, s).
Proof.
  intros Hdim Hk Hbad.
  assert (faiss.ntotal (Exercise2.index s) <> 0) as Hnz.
  { intros Hz. rewrite Hz, Z.min_r in Hbad by lia.
    unfold Exercise2Spec.hits in Hbad. cbn in Hbad. by apply Exists_nil in Hbad. }
  rewrite search_run by done. cbn zeta. apply search_collect_error.
  - apply Forall_app. split.
    + apply Forall_forall. intros h Hh.
      apply hits_elem in Hh as (_ & i & v & _ & ->). right. cbn. lia.
    + apply Forall_replicate. by left.
  - apply Exists_app. left. apply Exists_exists in Hbad as (h & Hh & Hlen).
    apply Exists_exists. exists h. split; [done|]. split.
    + apply hits_elem in Hh as (_ & i & v & _ & ->). cbn. lia.
    + by apply lookup_ge_None.
Qed.

Lemma normalized_search_missing_record_witness :
  let q := [Examples.f32 1; Examples.f32 0] in
  Z.of_nat (length q) = faiss.d (Exercise2.index PipelineExamples.misaligned) /\
  0 < 3 /\
  Exists (fun h => (length (Exercise2.documents PipelineExamples.misaligned)
                      <= Z.to_nat h.2)%nat)
    (Exercise2Spec.hits (Exercise2.index PipelineExamples.misaligned)
       (Z.min 3 (faiss.ntotal (Exercise2.index PipelineExamples.misaligned)))
       (Exercise2Spec.prepared 24 128 q)) /\
  Exercise2.search 24 128 q 3 PipelineExamples.misaligned
    = (Raise IndexError, PipelineExamples.misaligned).
Proof.
  intros q.
  assert (Exists (fun h => (length (Exercise2.documents PipelineExamples.misaligned)
                              <= Z.to_nat h.2)%nat)
            (Exercise2Spec.hits (Exercise2.index PipelineExamples.misaligned)
               (Z.min 3 (faiss.ntotal (Exercise2.index PipelineExamples.misaligned)))
               (Exercise2Spec.prepared 24 128 q))) as Hex.
  { apply (bool_decide_unpack _). vm_compute. exact I. }
  split; [reflexivity|]. split; [lia|]. split; [exact Hex|].
  apply (normalized_search_missing_record 24 128 q 3 PipelineExamples.misaligned);
    [reflexivity|lia|exact Hex].
Defined.

(** X11.  [save] leaves the store as it is, writes no file but
    [index.faiss] and [documents.json] of the directory, and replaces what
    an earlier [save] to the same directory wrote: saving a second store
    over a first leaves the disk as if only the second had been saved. *)
Theorem save_replaces_earlier_save {bytes : Type}
    (write_index : faiss.IndexFlatIP -> bytes)
    (json_dump : list Exercise2.Doc -> bytes)
    (path : string) (s1 s2 : Exercise2.VectorStore) (files : gmap string bytes) :
  let w1 := exec (Exercise2.save write_index json_dump path)
              {| Exercise2.self := s1; Exercise2.disk := files |} in
  Exercise2.self w1 = s1 /\
  (forall name,
     name <> Exercise2.path_join path "index.faiss" ->
     name <> Exercise2.path_join path "documents.json" ->
     Exercise2.disk w1 !! name = files !! name) /\
  Exercise2.save write_index json_dump path
      {| Exercise2.self := s2; Exercise2.disk := Exercise2.disk w1 |}
    = Exercise2.save write_index json_dump path
        {| Exercise2.self := s2; Exercise2.disk := files |}.
Proof.
  intros w1. subst w1. unfold exec. rewrite !save_eq.
  cbn [snd Exercise2.self Exercise2.disk].
  split; [done|]. split.
  - intros name H1 H2. by rewrite !lookup_insert_ne.
  - f_equal. f_equal.
    pose proof (artifact_names_differ path) as Hne.
    apply map_eq. intros name.
    destruct (decide (name = Exercise2.path_join path "documents.json")) as [->|H2].
    { by rewrite !lookup_insert_eq. }
    rewrite !(lookup_insert_ne _ (Exercise2.path_join path "documents.json")) by done.
    destruct (decide (name = Exercise2.path_join path "index.faiss")) as [->|H1].
    { by rewrite !lookup_insert_eq. }
    by rewrite !lookup_insert_ne.
Qed.

(** X12.  [load] replaces the index and the records by those of the files
    and leaves [self.dimension] as the constructor set it.  After loading,
    [add] checks the embedding against the dimension of the loaded index:
    an embedding of another length raises and stores nothing. *)
Theorem load_keeps_dimension_attribute {bytes : Type}
    (read_index : bytes -> option faiss.IndexFlatIP)
    (json_load : bytes -> option (list Exercise2.Doc))
    (prec emax : Z) (path : string) (w : Exercise2.World)
    content1 ix content2 ds :
  Exercise2.disk w !! Exercise2.path_join path "index.faiss" = Some content1 ->
  read_index content1 = Some ix ->
  Exercise2.disk w !! Exercise2.path_join path "documents.json" = Some content2 ->
  json_load content2 = Some ds ->
  exists s',
    Exercise2.load read_index json_load path w
      = (Ok tt, {| Exercise2.self := s'; Exercise2.disk := Exercise2.disk w |}) /\
    Exercise2.dimension s' = Exercise2.dimension (Exercise2.self w) /\
    Exercise2.index s' = ix /\
    Exercise2.documents s' = ds /\
    forall text v md,
      Z.of_nat (length v) <> faiss.d ix ->
      Exercise2.add prec emax text v md s' = (Raise AssertionError, s').
Proof.
  intros H1 H2 H3 H4. eexists. split; [by eapply load_both|].
  do 3 (split; [done|]). intros text v md Hv. by apply add_mismatch.
Qed.

Lemma load_keeps_dimension_attribute_witness :
  let w := {| Exercise2.self := Exercise2.init 3;
              Exercise2.disk :=
                {[ Exercise2.path_join "store" "index.faiss" :=
                     Examples.write_index (Exercise2.index Examples.normalized3);
                   Exercise2.path_join "store" "documents.json" :=
                     Examples.json_dump (Exercise2.documents Examples.normalized3) ]} |} in
  exists s',
    Exercise2.load Examples.read_index Examples.json_load "store" w
      = (Ok tt, {| Exercise2.self := s'; Exercise2.disk := Exercise2.disk w |}) /\
    Exercise2.dimension s' = 3 /\
    Exercise2.index s' = Exercise2.index Examples.normalized3 /\
    Exercise2.documents s' = Exercise2.documents Examples.normalized3 /\
    forall text v md,
      Z.of_nat (length v) <> 2 ->
      Exercise2.add 24 128 text v md s' = (Raise AssertionError, s').
Proof.
  intros w.
  exact (load_keeps_dimension_attribute Examples.read_index Examples.json_load
           24 128 "store" w
           (Examples.write_index (Exercise2.index Examples.normalized3))
           (Exercise2.index Examples.normalized3)
           (Examples.json_dump (Exercise2.documents Examples.normalized3))
           (Exercise2.documents Examples.normalized3)
           eq_refl eq_refl eq_refl eq_refl).
Defined.

(** X13.  [add_document] of the first pipeline returns the identity the
    store assigns and stores the text with the embedding of the model and
    the caller's metadata, in which ["token_count"] is the tokenizer's count
    for the text: a ["token_count"] given by the caller is overwritten, and
    every other key is kept. *)
Theorem add_document_records_token_count (count_tokens : string -> Z)
    (embed : string -> Vector) text md (s : Exercise1.VectorStore) :
  exists doc,
    Pipeline1.add_document count_tokens embed text md s =
      (Ok (Exercise1.next_id s),
       {| Exercise1.documents := Exercise1.documents s ++ [doc];
          Exercise1.next_id := Exercise1.next_id s + 1 |}) /\
    Exercise1.id doc = Exercise1.next_id s /\
    Exercise1.text doc = text /\
    Exercise1.embedding doc = embed text /\
    Exercise1.metadata doc !! "token_count"%string = Some (SInt (count_tokens text)) /\
    forall key, key <> "token_count"%string ->
      Exercise1.metadata doc !! key = default ∅ md !! key.
Proof.
  eexists. split; [apply add_document_eq|]. cbn.
  do 3 (split; [done|]). split; [by rewrite lookup_insert_eq|].
  intros key Hkey. by rewrite lookup_insert_ne.
Qed.

(** X14.  [add_documents] on a store whose identities are positions returns
    the consecutive identities from the former number of records on, keeps
    the numbering and the earlier records, and appends one record per text,
    in order, with the text's embedding and the metadata
    [{"token_count": n}]. *)
Theorem add_documents_consecutive_ids (count_tokens : string -> Z)
    (embed : string -> Vector) texts (s : Exercise1.VectorStore) :
  Exercise1Inv.well_numbered s ->
  exists s',
    Pipeline1.add_documents count_tokens embed texts s =
      (Ok (seqZ (Z.of_nat (length (Exercise1.documents s))) (Z.of_nat (length texts))),
       s') /\
    Exercise1Inv.well_numbered s' /\
    take (length (Exercise1.documents s)) (Exercise1.documents s')
      = Exercise1.documents s /\
    length (Exercise1.documents s')
      = (length (Exercise1.documents s) + length texts)%nat /\
    forall i text, texts !! i = Some text ->
      Exercise1.documents s' !! (length (Exercise1.documents s) + i)%nat =
        Some {| Exercise1.id := Z.of_nat (length (Exercise1.documents s) + i);
                Exercise1.text := text;
                Exercise1.embedding := embed text;
                Exercise1.metadata := {[ "token_count"%string := SInt (count_tokens text) ]} |}.
Proof.
  intros [Hn Hid]. unfold Pipeline1.add_documents. rewrite add_documents_loop.
  rewrite Hn. eexists. split; [reflexivity|].
  cbn [Exercise1.documents Exercise1.next_id].
  assert (forall i text, texts !! i = Some text ->
            (Exercise1.documents s ++
               imap (fun i text => counted count_tokens embed
                        (Z.of_nat (length (Exercise1.documents s)) + Z.of_nat i) text) texts)
              !! (length (Exercise1.documents s) + i)%nat =
            Some (counted count_tokens embed
                    (Z.of_nat (length (Exercise1.documents s) + i)) text)) as Hnew.
  { intros i text Hi. rewrite lookup_app_r by lia.
    replace (length (Exercise1.documents s) + i - length (Exercise1.documents s))%nat
      with i by lia.
    rewrite list_lookup_imap, Hi. cbn. do 2 f_equal. lia. }
  split; [|split; [|split]].
  - split; cbn [Exercise1.documents Exercise1.next_id].
    + rewrite length_app, length_imap. lia.
    + intros i doc Hdoc.
      destruct (decide (i < length (Exercise1.documents s))%nat) as [Hlt|Hge].
      * rewrite lookup_app_l in Hdoc by done. by apply Hid.
      * pose proof (lookup_lt_Some _ _ _ Hdoc) as Hlen.
        rewrite length_app, length_imap in Hlen.
        destruct (lookup_lt_is_Some_2 texts (i - length (Exercise1.documents s)))
          as [text Htext]; [lia|].
        specialize (Hnew _ _ Htext).
        replace (length (Exercise1.documents s) + (i - length (Exercise1.documents s)))%nat
          with i in Hnew by lia.
        rewrite Hnew in Hdoc. injection Hdoc as <-. done.
  - by rewrite take_app_length.
  - by rewrite length_app, length_imap.
  - exact Hnew.
Qed.

Lemma add_documents_consecutive_ids_witness :
  exists s',
    Pipeline1.add_documents PipelineExamples.count_tokens PipelineExamples.embed
        ["D"; "EE"]%string Examples.exact3 =
      (Ok [3; 4], s') /\
    Exercise1Inv.well_numbered s' /\
    length (Exercise1.documents s') = 5%nat.
Proof.
  assert (Exercise1Inv.well_numbered Examples.exact3) as Hs.
  { split; [reflexivity|]. intros [|[|[|i]]] doc [= <-]; reflexivity. }
  destruct (add_documents_consecutive_ids PipelineExamples.count_tokens
              PipelineExamples.embed ["D"; "EE"]%string Examples.exact3 Hs)
    as (s' & Heq & Hw & _ & Hlen & _).
  by exists s'.
Defined.

(** X15.  [query] of the first pipeline answers with the fixed message when
    nothing is retrieved, also on a store that holds records: for
    [top_k = 0], or a negative [top_k] with no more than [-top_k] records,
    the answer is the message, a language model is not consulted, and the
    store is unchanged. *)
Theorem query_nothing_retrieved (prec emax : Z) (embed : string -> Vector)
    (format_2f : float -> string) (llm : option (string -> string -> string))
    question top_k (s : Exercise1.VectorStore) :
  Exercise1Spec.same_dimension (embed question) s ->
  top_k = 0 \/ (top_k < 0 /\ Z.of_nat (length (Exercise1.documents s)) <= - top_k) ->
  Pipeline1.query prec emax embed format_2f llm question top_k s
    = (Ok "No relevant documents found in the knowledge base."%string, s).
Proof.
  intros Hdim Hk. unfold Pipeline1.query, Pipeline1.retrieve.
  unfold bind at 1, bind at 1. rewrite search_eq by done.
  assert (slice_to top_k (Exercise1Spec.ranking prec emax (embed question)
                            (Exercise1.documents s)) = []) as ->; [|done].
  unfold slice_to. destruct Hk as [->|[Hk Hlen]]; [done|].
  rewrite (proj2 (Z.leb_gt 0 top_k)) by done.
  pose proof (Permutation_length
    (ranking_perm prec emax (embed question) (Exercise1.documents s))) as Hperm.
  unfold Exercise1Spec.scored in Hperm. rewrite length_map in Hperm.
  rewrite Hperm. by replace (Z.to_nat _) with 0%nat by lia.
Qed.

Lemma query_nothing_retrieved_witness :
  Exercise1Spec.same_dimension (PipelineExamples.embed "Who?") Examples.exact3 /\
  Pipeline1.query 53 1024 PipelineExamples.embed (fun _ => "0.00"%string) None
      "Who?" 0 Examples.exact3
    = (Ok "No relevant documents found in the knowledge base."%string, Examples.exact3).
Proof.
  assert (Exercise1Spec.same_dimension (PipelineExamples.embed "Who?") Examples.exact3)
    as Hdim by (repeat constructor).
  split; [exact Hdim|].
  apply (query_nothing_retrieved 53 1024 PipelineExamples.embed (fun _ => "0.00"%string)
           None "Who?"%string 0 Examples.exact3 Hdim).
  left. reflexivity.
Defined.

(** X16.  [load_pdf] returns when [overlap < chunk_size] (with
    [chunk_size >= 0]): once [fuel] exceeds the length of every page, the
    result is the same for every greater [fuel].  Its chunks are numbered
    [0, 1, 2, ...] in list order; each chunk's text is not empty, has no
    white space at either end and at most [chunk_size] characters, is the
    stripped window of [chunk_size] characters of page number [page]
    (counted from 1), and carries the file's name. *)
Theorem load_pdf_chunks (pdfs : gmap string (list (option string)))
    (path_name : string -> string) (fuel : nat) pdf_path pages chunk_size overlap :
  pdfs !! pdf_path = Some pages ->
  0 <= chunk_size -> overlap < chunk_size ->
  Forall (fun extracted => forall page_text,
            extracted = Some page_text -> (String.length page_text < fuel)%nat) pages ->
  exists chunks,
    (forall fuel', (fuel <= fuel')%nat ->
       pdf_loader.load_pdf pdfs path_name fuel' pdf_path chunk_size overlap
         = Some (Ok chunks)) /\
    pdf_loader_spec.numbered chunks /\
    Forall (fun c =>
              pdf_loader.text c <> EmptyString /\
              stripped (pdf_loader.text c) /\
              Z.of_nat (String.length (pdf_loader.text c)) <= chunk_size /\
              pdf_loader_spec.window_of pages chunk_size (path_name pdf_path) c)
      chunks.
Proof.
  intros Hfile Hsize Hstep Hfuel.
  destruct (load_pages_enough chunk_size overlap (path_name pdf_path) fuel pages
              Hstep Hfuel 1 [] 0) as [chunks Hrun].
  exists chunks. split; [|split].
  - intros fuel' Hle. unfold pdf_loader.load_pdf. rewrite Hfile.
    by rewrite (load_pages_more _ _ _ _ _ _ Hle _ _ _ _ Hrun).
  - apply (load_pages_chunks chunk_size overlap (path_name pdf_path) fuel pages
             ltac:(lia) []) in Hrun as (new & -> & Hnum & _); [|done..].
    intros i c Hc. by apply Hnum in Hc.
  - apply (load_pages_chunks chunk_size overlap (path_name pdf_path) fuel pages
             ltac:(lia) []) in Hrun as (new & -> & _ & Hwin); [|done..].
    cbn [app] in *. eapply Forall_impl; [exact Hwin|]. cbn.
    intros c [Htext Hw]. split; [done|].
    pose proof Hw as (page_text & start & _ & _ & Hstart & Heq & _).
    rewrite Heq. split; [apply strip_stripped|]. split; [|done].
    pose proof (length_strip (slice start (start + chunk_size) page_text)).
    pose proof (length_slice start chunk_size page_text). lia.
Qed.

Lemma load_pdf_chunks_witness :
  exists chunks,
    pdf_loader.load_pdf PipelineExamples.pdfs PipelineExamples.path_name 12 "a.pdf" 5 2
      = Some (Ok chunks) /\
    pdf_loader_spec.numbered chunks /\
    Forall (fun c =>
              pdf_loader.text c <> EmptyString /\
              stripped (pdf_loader.text c) /\
              Z.of_nat (String.length (pdf_loader.text c)) <= 5 /\
              pdf_loader_spec.window_of
                [Some "hello world"%string; None; Some " ab "%string] 5
                (PipelineExamples.path_name "a.pdf") c) chunks.
Proof.
  destruct (load_pdf_chunks PipelineExamples.pdfs PipelineExamples.path_name 12 "a.pdf"%string
              [Some "hello world"%string; None; Some " ab "%string] 5 2)
    as (chunks & Hload & Hnum & Hchunks).
  - reflexivity.
  - lia.
  - lia.
  - repeat (apply Forall_cons_2;
            [intros page_text Hp; try discriminate; injection Hp as <-; cbn; lia|]).
    apply Forall_nil_2.
  - exists chunks. split; [apply Hload; lia|]. split; [exact Hnum|exact Hchunks].
Defined.

(** X17.  [load_pdf] does not return when [chunk_size <= overlap] and some
    page has text: the start of the window never advances past the
    beginning of that page, so the [while] loop does not end, whatever the
    bound on its iterations. *)
Theorem load_pdf_never_returns (pdfs : gmap string (list (option string)))
    (path_name : string -> string) pdf_path pages chunk_size overlap :
  pdfs !! pdf_path = Some pages ->
  chunk_size <= overlap ->
  Exists (fun extracted => exists page_text,
            extracted = Some page_text /\ page_text <> EmptyString) pages ->
  forall fuel,
    pdf_loader.load_pdf pdfs path_name fuel pdf_path chunk_size overlap = None.
Proof.
  intros Hfile Hstep Hex fuel. unfold pdf_loader.load_pdf. rewrite Hfile.
  by rewrite load_pages_loops.
Qed.

Lemma load_pdf_never_returns_witness :
  50 <= 50 /\
  pdf_loader.load_pdf PipelineExamples.pdfs PipelineExamples.path_name 1000
    "a.pdf" 50 50 = None.
Proof.
  split; [lia|].
  apply (load_pdf_never_returns PipelineExamples.pdfs PipelineExamples.path_name
           "a.pdf"%string [Some "hello world"%string; None; Some " ab "%string] 50 50).
  - reflexivity.
  - lia.
  - apply Exists_cons_hd. eexists. split; [reflexivity|discriminate].
Defined.

(** X18.  [index_pdf] returns the number of chunks [load_pdf] gives (with
    its default [chunk_size = 500], [overlap = 50], for which it always
    returns) and, when the embedding model answers one row of the index's
    dimension per text, keeps records and vectors aligned: one record per
    chunk is appended, in order, with the chunk's text and the metadata
    [{"page": page, "source": file name}].  Without chunks the store is
    unchanged. *)
Theorem index_pdf_adds_chunks (prec emax : Z)
    (pdfs : gmap string (list (option string))) (path_name : string -> string)
    (embed_batch : list string -> ndarray2) (fuel : nat) pdf_path pages
    (s : Exercise2.VectorStore) :
  pdfs !! pdf_path = Some pages ->
  Forall (fun extracted => forall page_text,
            extracted = Some page_text -> (String.length page_text < fuel)%nat) pages ->
  (forall texts,
     ncols (embed_batch texts) = faiss.d (Exercise2.index s) /\
     length (rows (embed_batch texts)) = length texts) ->
  Exercise2Spec.aligned s ->
  exists chunks run s',
    pdf_loader.load_pdf pdfs path_name fuel pdf_path 500 50 = Some (Ok chunks) /\
    Pipeline2.index_pdf prec emax pdfs path_name embed_batch fuel pdf_path = Some run /\
    run s = (Ok (Z.of_nat (length chunks)), s') /\
    Exercise2Spec.aligned s' /\
    Exercise2.documents s' =
      Exercise2.documents s ++
      map (fun c =>
             {| Exercise2.text := pdf_loader.text c;
                Exercise2.metadata :=
                  {[ "page"%string := SInt (pdf_loader.page c);
                     "source"%string := SStr (path_name pdf_path) ]} |}) chunks /\
    (chunks = [] -> s' = s).
Proof.
  intros Hfile Hfuel Hshape Hal.
  destruct (load_pdf_sources pdfs path_name fuel pdf_path pages 500 50 Hfile
              ltac:(lia) Hfuel) as (chunks & Hload & Hchunks).
  destruct (index_pdf_run prec emax pdfs path_name embed_batch fuel pdf_path chunks s
              Hload (proj1 (Hshape _))) as (run & Hrun & Hres).
  exists chunks, run. eexists. split; [done|]. split; [done|]. split; [exact Hres|].
  assert (map chunk_record chunks =
          map (fun c =>
             {| Exercise2.text := pdf_loader.text c;
                Exercise2.metadata :=
                  {[ "page"%string := SInt (pdf_loader.page c);
                     "source"%string := SStr (path_name pdf_path) ]} |}) chunks) as Hrec.
  { apply map_ext_Forall. eapply Forall_impl; [exact Hchunks|]. cbn.
    intros c Hsource. unfold chunk_record. by rewrite Hsource. }
  destruct chunks as [|c chunks].
  { split; [done|]. split; [by rewrite app_nil_r|done]. }
  split; [|split; [by rewrite <- Hrec|done]].
  unfold Exercise2Spec.aligned in *.
  cbn [Exercise2.documents Exercise2.index faiss.xb].
  rewrite !length_app, !length_map, Hal.
  by rewrite (proj2 (Hshape _)), length_map.
Qed.

Lemma index_pdf_adds_chunks_witness :
  exists run s',
    Pipeline2.index_pdf 24 128 PipelineExamples.pdfs PipelineExamples.path_name
      PipelineExamples.embed_batch 12 "a.pdf" = Some run /\
    run Examples.normalized3 = (Ok 2, s') /\
    Exercise2Spec.aligned s' /\
    length (Exercise2.documents s') = 5%nat.
Proof.
  destruct (index_pdf_adds_chunks 24 128 PipelineExamples.pdfs PipelineExamples.path_name
              PipelineExamples.embed_batch 12 "a.pdf"%string
              [Some "hello world"%string; None; Some " ab "%string]
              Examples.normalized3)
    as (chunks & run & s' & Hload & Hrun & Hres & Hal & Hdocs & _).
  - reflexivity.
  - repeat (apply Forall_cons_2;
            [intros page_text Hp; try discriminate; injection Hp as <-; cbn; lia|]).
    apply Forall_nil_2.
  - intros texts. split; [reflexivity|]. cbn. apply length_map.
  - reflexivity.
  - assert (length chunks = 2%nat) as Hlen.
    { vm_compute in Hload. by injection Hload as <-. }
    exists run, s'. split; [exact Hrun|]. rewrite Hlen in Hres.
    split; [exact Hres|]. split; [exact Hal|].
    rewrite Hdocs, length_app, length_map, Hlen. reflexivity.
Defined.

(** X19.  [index_pdf] of a file that does not exist raises
    [FileNotFoundError], and [index_pdf] of a file whose pages have no text
    or only white space returns [0]; in both cases the store is
    unchanged. *)
Theorem index_pdf_nothing_to_index (prec emax : Z)
    (pdfs : gmap string (list (option string))) (path_name : string -> string)
    (embed_batch : list string -> ndarray2) (s : Exercise2.VectorStore) :
  (forall fuel pdf_path,
     pdfs !! pdf_path = None ->
     exists run,
       Pipeline2.index_pdf prec emax pdfs path_name embed_batch fuel pdf_path
         = Some run /\
       run s = (Raise FileNotFoundError, s)) /\
  (forall fuel pdf_path pages,
     pdfs !! pdf_path = Some pages ->
     Forall (fun extracted => forall page_text,
               extracted = Some page_text ->
               lstrip page_text = EmptyString /\
               (String.length page_text < fuel)%nat) pages ->
     exists run,
       Pipeline2.index_pdf prec emax pdfs path_name embed_batch fuel pdf_path
         = Some run /\
       run s = (Ok 0, s)).
Proof.
  split.
  - intros fuel pdf_path Hfile. unfold Pipeline2.index_pdf, pdf_loader.load_pdf.
    rewrite Hfile. by eexists.
  - intros fuel pdf_path pages Hfile Hpages.
    unfold Pipeline2.index_pdf, pdf_loader.load_pdf. rewrite Hfile.
    destruct (load_pages_enough 500 50 (path_name pdf_path) fuel pages ltac:(lia)
                ltac:(eapply Forall_impl; [exact Hpages|]; cbn; naive_solver)
                1 [] 0) as [chunks Hrun].
    rewrite Hrun.
    apply load_pages_blank in Hrun as ->.
    2:{ eapply Forall_impl; [exact Hpages|]. cbn. naive_solver. }
    by eexists.
Qed.

Lemma index_pdf_nothing_to_index_witness :
  (exists run,
     Pipeline2.index_pdf 24 128 PipelineExamples.pdfs PipelineExamples.path_name
       PipelineExamples.embed_batch 5 "missing.pdf" = Some run /\
     run Examples.normalized3 = (Raise FileNotFoundError, Examples.normalized3)) /\
  (exists run,
     Pipeline2.index_pdf 24 128 PipelineExamples.pdfs PipelineExamples.path_name
       PipelineExamples.embed_batch 5 "blank.pdf" = Some run /\
     run Examples.normalized3 = (Ok 0, Examples.normalized3)).
Proof.
  destruct (index_pdf_nothing_to_index 24 128 PipelineExamples.pdfs PipelineExamples.path_name
              PipelineExamples.embed_batch Examples.normalized3) as [Hmissing Hblank].
  split.
  - apply (Hmissing 5%nat "missing.pdf"%string). reflexivity.
  - apply (Hblank 5%nat "blank.pdf"%string [Some "   "%string; None]).
    + reflexivity.
    + repeat (apply Forall_cons_2;
              [intros page_text Hp;
               first [discriminate
                     |injection Hp as <-; split; [reflexivity|cbn; lia]]|]).
      apply Forall_nil_2.
Defined.

(** X20.  [query] of the second pipeline answers "No relevant documents
    found." on an empty index for every [top_k], and on an index that is not
    empty raises the assertion of faiss for [top_k <= 0]; in both cases no
    language model is consulted and the store is unchanged. *)
Theorem pipeline_query_edge (prec emax : Z) (embed : string -> Vector)
    (llm : option (string -> string -> string)) question top_k
    (s : Exercise2.VectorStore) :
  (faiss.ntotal (Exercise2.index s) = 0 ->
   Pipeline2.query prec emax embed llm question top_k s
     = (Ok "No relevant documents found."%string, s)) /\
  (faiss.ntotal (Exercise2.index s) <> 0 -> top_k <= 0 ->
   Pipeline2.query prec emax embed llm question top_k s
     = (Raise AssertionError, s)).
Proof.
  split.
  - intros Hz. unfold Pipeline2.query, Pipeline2.retrieve.
    unfold bind at 1, bind at 1. by rewrite search_empty.
  - intros Hnz Hk. unfold Pipeline2.query, Pipeline2.retrieve.
    unfold bind at 1, bind at 1.
    assert (Exercise2.search prec emax (embed question) top_k s
            = (Raise AssertionError, s)) as ->; [|done].
    unfold Exercise2.search. rewrite bind_get.
    rewrite (proj2 (Z.eqb_neq _ 0)) by done.
    rewrite bind_lift. unfold faiss.search.
    destruct (decide (ncols _ = _)); [|done].
    rewrite decide_False; [done|]. unfold faiss.ntotal. lia.
Qed.

Lemma pipeline_query_edge_witness :
  Pipeline2.query 24 128 PipelineExamples.embed None "Who?" 0 (Exercise2.init 2)
    = (Ok "No relevant documents found."%string, Exercise2.init 2) /\
  Pipeline2.query 24 128 PipelineExamples.embed None "Who?" 0 Examples.normalized3
    = (Raise AssertionError, Examples.normalized3).
Proof.
  split.
  - apply (proj1 (pipeline_query_edge 24 128 PipelineExamples.embed None "Who?"%string 0
                    (Exercise2.init 2))). reflexivity.
  - apply (proj2 (pipeline_query_edge 24 128 PipelineExamples.embed None "Who?"%string 0
                    Examples.normalized3)); [|lia].
    intros H. vm_compute in H. discriminate.
Defined.
